(** * app-of-search: content extraction, summarisation and quiz generation

    A shallow embedding of [app.py] (the Streamlit application) and of the
    functions of [ai_studio_code.py] that differ from it.  The second file
    is an earlier draft of the same script, saved with its markdown fence
    lines, so it is kept in a module of its own ([Draft]).

    Python [str] values are lists of code points, so that [len], slicing
    and [startswith] count characters as Python does.  The libraries the
    script calls ([requests], [bs4], [google.generativeai], [json],
    [duckduckgo_search]) are collaborators: their answers are fields of a
    [World], and every call the script makes is logged as an [event]. *)

From Stdlib Require Import Strings.String Strings.Byte Strings.Ascii.
From Stdlib Require Import NArith ZArith List Lia.
From stdpp Require Import base option list gmap.

Set Warnings "-register-all".

(** ** Python strings *)

Definition str : Type := list N.

(** Decoding of the UTF-8 bytes of a literal into code points. *)
Fixpoint utf8_decode (bs : list N) : str :=
  match bs with
  | [] => []
  | b0 :: r0 =>
    if (b0 <? 0x80)%N then b0 :: utf8_decode r0
    else if (b0 <? 0xE0)%N then
      match r0 with
      | b1 :: r1 =>
        N.lor (N.shiftl (N.land b0 0x1F) 6) (N.land b1 0x3F) :: utf8_decode r1
      | _ => []
      end
    else if (b0 <? 0xF0)%N then
      match r0 with
      | b1 :: b2 :: r2 =>
        N.lor (N.shiftl (N.land b0 0x0F) 12)
          (N.lor (N.shiftl (N.land b1 0x3F) 6) (N.land b2 0x3F))
        :: utf8_decode r2
      | _ => []
      end
    else
      match r0 with
      | b1 :: b2 :: b3 :: r3 =>
        N.lor (N.shiftl (N.land b0 0x07) 18)
          (N.lor (N.shiftl (N.land b1 0x3F) 12)
             (N.lor (N.shiftl (N.land b2 0x3F) 6) (N.land b3 0x3F)))
        :: utf8_decode r3
      | _ => []
      end
  end.

(** A source literal, written as it stands in the Python file. *)
Definition py (s : string) : str :=
  utf8_decode (List.map Byte.to_N (list_byte_of_string s)).
Arguments py s%_string.

Definition NL : str := [10%N].
Definition DQ : str := [34%N].

Definition chr_eqb (a b : N) : bool := (a =? b)%N.

Fixpoint str_eqb (a b : str) : bool :=
  match a, b with
  | [], [] => true
  | x :: a', y :: b' => chr_eqb x y && str_eqb a' b'
  | _, _ => false
  end.

(** [s.startswith(prefix)] *)
Fixpoint str_startswith (prefix s : str) : bool :=
  match prefix, s with
  | [], _ => true
  | p :: prefix', c :: s' => chr_eqb p c && str_startswith prefix' s'
  | _ :: _, [] => false
  end.

(** [sub in s] for two strings *)
Fixpoint str_contains (sub s : str) : bool :=
  str_startswith sub s ||
  match s with
  | [] => false
  | _ :: s' => str_contains sub s'
  end.

(** [sep.join(parts)] *)
Fixpoint str_join (sep : str) (parts : list str) : str :=
  match parts with
  | [] => []
  | [p] => p
  | p :: rest => p ++ sep ++ str_join sep rest
  end.

(** [str.isspace] on one character: the set [str.strip()] removes. *)
Definition is_space (c : N) : bool :=
  ((9 <=? c) && (c <=? 13) || (28 <=? c) && (c <=? 32)
   || (c =? 133) || (c =? 160) || (c =? 5760)
   || (8192 <=? c) && (c <=? 8202)
   || (c =? 8232) || (c =? 8233) || (c =? 8239) || (c =? 8287)
   || (c =? 12288))%N.

Fixpoint drop_while (f : N -> bool) (s : str) : str :=
  match s with
  | [] => []
  | c :: s' => if f c then drop_while f s' else s
  end.

Definition drop_while_end (f : N -> bool) (s : str) : str :=
  rev (drop_while f (rev s)).

Definition chr_in (chars : str) (c : N) : bool := existsb (chr_eqb c) chars.

(** [s.strip()], [s.lstrip(chars)], [s.rstrip(chars)]: the argument of the
    last two is a set of characters, not a prefix or a suffix. *)
Definition str_strip (s : str) : str := drop_while_end is_space (drop_while is_space s).
Definition str_lstrip (chars s : str) : str := drop_while (chr_in chars) s.
Definition str_rstrip (chars s : str) : str := drop_while_end (chr_in chars) s.

(** [s[:n]] *)
Definition str_slice_to (n : nat) (s : str) : str := take n s.

(** [str(n)] for a non-negative integer. *)
Fixpoint digits_of_uint (d : Decimal.uint) : str :=
  match d with
  | Decimal.Nil => []
  | Decimal.D0 d' => 48%N :: digits_of_uint d'
  | Decimal.D1 d' => 49%N :: digits_of_uint d'
  | Decimal.D2 d' => 50%N :: digits_of_uint d'
  | Decimal.D3 d' => 51%N :: digits_of_uint d'
  | Decimal.D4 d' => 52%N :: digits_of_uint d'
  | Decimal.D5 d' => 53%N :: digits_of_uint d'
  | Decimal.D6 d' => 54%N :: digits_of_uint d'
  | Decimal.D7 d' => 55%N :: digits_of_uint d'
  | Decimal.D8 d' => 56%N :: digits_of_uint d'
  | Decimal.D9 d' => 57%N :: digits_of_uint d'
  end.

Definition str_of_nat (n : nat) : str := digits_of_uint (Nat.to_uint n).

(** ** Python values, exceptions and results *)

(** What [json.loads] can return.  A [dict] is a finite map from its keys;
    a float is kept as its literal, with whether its value is zero. *)
Inductive pyval : Type :=
| PyNone
| PyBool (b : bool)
| PyInt (z : Z)
| PyFloat (literal : str) (is_zero : bool)
| PyStr (s : str)
| PyList (items : list pyval)
| PyDict (d : gmap (list N) pyval).

(** The exception classes the script names or can meet; all of them are
    subclasses of [Exception]. *)
Inductive exn_class : Type :=
| RequestException
| JSONDecodeError
| AttributeError
| KeyError
| TypeError
| OtherException.

Record exn : Type := { exn_kind : exn_class; exn_str : str }.

Inductive py_result (A : Type) : Type :=
| Returned (a : A)
| Raised (e : exn).
Arguments Returned {A} a.
Arguments Raised {A} e.

Definition exn_class_eqb (a b : exn_class) : bool :=
  match a, b with
  | RequestException, RequestException
  | JSONDecodeError, JSONDecodeError
  | AttributeError, AttributeError
  | KeyError, KeyError
  | TypeError, TypeError
  | OtherException, OtherException => true
  | _, _ => false
  end.

(** ** Effects: a log of calls, and exceptions *)

Inductive event : Type :=
| EvConfigure (api_key : str)
| EvModel (name : str)
| EvSearch (query : str) (max_results : nat)
| EvHttpGet (url : str) (timeout : Z)
| EvSleep (milliseconds : N)
| EvProgress (done total : nat) (text : str)
| EvProgressEmpty
| EvGenerate (prompt : str)
| EvWrite (text : str)
| EvError (text : str).

Definition Eff (A : Type) : Type := list event * py_result A.

Definition ret {A} (a : A) : Eff A := ([], Returned a).
Definition raise {A} (e : exn) : Eff A := ([], Raised e).
Definition emit (ev : event) : Eff unit := ([ev], Returned tt).
Definition lift {A} (r : py_result A) : Eff A := ([], r).

Definition bind {A B} (m : Eff A) (k : A -> Eff B) : Eff B :=
  match m with
  | (t, Returned a) => let '(t', r) := k a in (t ++ t', r)
  | (t, Raised e) => (t, Raised e)
  end.

Notation "'let*' x := m 'in' k" := (bind m (fun x => k))
  (at level 10, x name, m at level 100, k at level 200, only parsing).
Notation "m ;;; k" := (bind m (fun _ => k))
  (at level 100, k at level 200, right associativity, only parsing).

(** [try: m except C1: h1 except C2: h2 ...]: the first clause whose class
    test accepts the exception handles it; with no such clause it goes on. *)
Fixpoint find_handler {A} (hs : list ((exn -> bool) * (exn -> Eff A))) (e : exn)
  : option (Eff A) :=
  match hs with
  | [] => None
  | (accepts, h) :: hs' => if accepts e then Some (h e) else find_handler hs' e
  end.

Definition try_except {A} (m : Eff A) (hs : list ((exn -> bool) * (exn -> Eff A)))
  : Eff A :=
  match m with
  | (t, Returned a) => (t, Returned a)
  | (t, Raised e) =>
    match find_handler hs e with
    | Some (t', r) => (t ++ t', r)
    | None => (t, Raised e)
    end
  end.

Definition is_a (c : exn_class) (e : exn) : bool := exn_class_eqb (exn_kind e) c.
Definition is_Exception (e : exn) : bool := true.

Definition trace_of {A} (m : Eff A) : list event := fst m.
Definition result_of {A} (m : Eff A) : py_result A := snd m.

(** ** The parsed page (bs4)

    The tree [BeautifulSoup(..., 'html.parser')] builds.  Only what
    [find], [find_all] and [get_text] look at is kept: element names,
    nesting, and the text strings [get_text] collects.  [html.parser]
    adds no element of its own, so a page without a [body] tag has none
    and an empty page is the empty tree. *)

Inductive node : Type :=
| NavigableString (s : str)
| Tag (name : str) (contents : list node).

(** [tag.descendants]: every node below, in document order. *)
Fixpoint descendants (n : node) : list node :=
  match n with
  | NavigableString _ => []
  | Tag _ contents =>
    (fix below (l : list node) : list node :=
       match l with
       | [] => []
       | c :: l' => c :: descendants c ++ below l'
       end) contents
  end.

Definition soup_descendants (soup : list node) : list node :=
  flat_map (fun c => c :: descendants c) soup.

Definition tag_named (name : str) (n : node) : bool :=
  match n with
  | Tag nm _ => str_eqb nm name
  | NavigableString _ => false
  end.

(** [soup.find(name)], also [soup.body]: the first such element, or None. *)
Definition find (name : str) (soup : list node) : option node :=
  head (List.filter (tag_named name) (soup_descendants soup)).

(** [tag.find_all(name, recursive=True)] *)
Definition find_all (name : str) (n : node) : list node :=
  List.filter (tag_named name) (descendants n).

Definition soup_find_all (name : str) (soup : list node) : list node :=
  List.filter (tag_named name) (soup_descendants soup).

Definition node_strings (l : list node) : list str :=
  flat_map (fun n => match n with NavigableString s => [s] | Tag _ _ => [] end) l.

Definition non_empty (s : str) : bool := negb (Nat.eqb (length s) 0).

(** The strings [get_text] joins: with [strip=True] each one is stripped
    and the empty ones are dropped. *)
Definition all_strings (strip : bool) (l : list node) : list str :=
  if strip then List.filter non_empty (List.map str_strip (node_strings l))
  else node_strings l.

(** [tag.get_text(separator, strip)] *)
Definition get_text (separator : str) (strip : bool) (n : node) : str :=
  str_join separator (all_strings strip (descendants n)).

(** [a or b] on two results of [find]: an element is always truthy. *)
Definition py_or (a b : option node) : option node :=
  match a with
  | Some t => Some t
  | None => b
  end.

(** ** Collaborators *)

(** A dict of [DDGS().text]. *)
Record SearchResult : Type := { title : str; href : str; body : str }.

(** What [requests.get] returned, after the redirects it follows:
    [status_code] is the status of the last response, [http_error_text]
    the message [raise_for_status] gives its [HTTPError] (status, reason
    and URL, put together by the library), [soup] the tree parsed from the
    response body. *)
Record Response : Type := {
  status_code : Z;
  http_error_text : str;
  soup : list node
}.

(** [raise_for_status] raises for the statuses 400 to 599 and for no
    other: a 1xx or 3xx response passes like a 2xx one. *)
Definition status_is_error (response : Response) : bool :=
  ((400 <=? status_code response) && (status_code response <? 600))%Z.

Definition status_is_2xx (response : Response) : bool :=
  ((200 <=? status_code response) && (status_code response <? 300))%Z.

(** The message of the [HTTPError] that [raise_for_status] raises, if it
    raises. *)
Definition http_error (response : Response) : option str :=
  if status_is_error response then Some (http_error_text response) else None.

Record World : Type := {
  ddgs_text : str -> nat -> py_result (list SearchResult);
  requests_get : str -> Z -> py_result Response;
  generate_content : str -> py_result str;
  json_loads : str -> py_result pyval
}.

Definition USER_AGENT : str :=
  py "Mozilla/5.0 (Windows NT 10.0; Win64; x64) AppleWebKit/537.36 (KHTML, like Gecko) Chrome/91.0.4472.124 Safari/537.36".

Definition http_get (w : World) (url : str) (timeout : Z) : Eff Response :=
  emit (EvHttpGet url timeout) ;;;
  lift (requests_get w url timeout).

Definition raise_for_status (response : Response) : Eff unit :=
  match http_error response with
  | Some msg => raise {| exn_kind := RequestException; exn_str := msg |}
  | None => ret tt
  end.

(** Attribute access on the result of a [find]: None has no attribute. *)
Definition attribute_of (o : option node) (attribute : str) : Eff node :=
  match o with
  | Some t => ret t
  | None =>
    raise {| exn_kind := AttributeError;
             exn_str := py "'NoneType' object has no attribute '" ++ attribute ++ py "'" |}
  end.

(** ** app.py *)

(** [search_web] *)
Definition search_web (w : World) (query : str) (max_results : nat)
  : Eff (list SearchResult) :=
  try_except
    (emit (EvSearch query max_results) ;;;
     lift (ddgs_text w query max_results))
    [(is_Exception,
      fun e => emit (EvError (py "検索中にエラーが発生しました: " ++ exn_str e)) ;;;
               ret [])].

Definition FETCH_FAILED : str := py "コンテンツの取得に失敗しました: ".
Definition UNEXPECTED_FAILED : str := py "予期せぬエラーでコンテンツ取得に失敗しました: ".

(** The region [scrape_content] reads: [main], else [article], else [body]. *)
Definition main_content_of (soup : list node) : option node :=
  py_or (find (py "main") soup) (py_or (find (py "article") soup) (find (py "body") soup)).

(** The text of the paragraphs kept: stripped text longer than 50. *)
Definition paragraph_content (paragraphs : list node) : str :=
  str_join NL
    (List.map (get_text [] true)
       (List.filter (fun p => Nat.ltb 50 (length (get_text [] true p))) paragraphs)).

(** The [try] block of [scrape_content]. *)
Definition scrape_content_try (w : World) (url : str) (timeout : Z) : Eff str :=
  let* response := http_get w url timeout in
  raise_for_status response ;;;
  let main_content := main_content_of (soup response) in
  let* region := attribute_of main_content (py "find_all") in
  let paragraphs := find_all (py "p") region in
  let content := paragraph_content paragraphs in
  let content :=
    if Nat.ltb (length content) 200 then get_text NL true region else content in
  ret (str_slice_to 4000 content).

Definition scrape_content (w : World) (url : str) (timeout : Z) : Eff str :=
  try_except (scrape_content_try w url timeout)
    [(is_a RequestException, fun _ => ret (FETCH_FAILED ++ url));
     (is_Exception, fun _ => ret (UNEXPECTED_FAILED ++ url))].

Definition DEFAULT_TIMEOUT : Z := 10.

Definition FAILED_PREFIX_1 : str := py "コンテンツの取得に失敗".
Definition FAILED_PREFIX_2 : str := py "予期せぬエラー".

(** The test of [get_summary] on what [scrape_content] returned. *)
Definition looks_fetched (content : str) : bool :=
  negb (str_startswith FAILED_PREFIX_1 content)
  && negb (str_startswith FAILED_PREFIX_2 content).

Definition source_block (i : nat) (result : SearchResult) (content : str) : str :=
  py "--- ソース " ++ str_of_nat (i + 1) ++ py " (" ++ title result ++ py ") ---"
  ++ NL ++ content ++ NL ++ NL.

(** The [for i, result in enumerate(search_results)] loop; [total] is
    [len(search_results)]. *)
Fixpoint scrape_loop (w : World) (total i : nat) (results : list SearchResult)
    (scraped_contents : list str) : Eff (list str) :=
  match results with
  | [] => ret scraped_contents
  | result :: rest =>
    let* content := scrape_content w (href result) DEFAULT_TIMEOUT in
    let scraped_contents :=
      if looks_fetched content
      then scraped_contents ++ [source_block i result content]
      else scraped_contents in
    emit (EvSleep 500) ;;;
    emit (EvProgress (i + 1) total (py "情報収集中: " ++ title result)) ;;;
    scrape_loop w total (S i) rest scraped_contents
  end.

Definition NOTHING_FETCHED : str :=
  py "すべてのソースからコンテンツを取得できませんでした。別のキーワードで試すか、時間をおいて再度実行してください。".

Definition SUMMARY_ERROR : str := py "要約の生成中にエラーが発生しました: ".

Definition IND : str := py "    ".

Definition summary_prompt (query : str) (collected : str) : str :=
  NL ++ IND ++ py "ユーザーの検索クエリと、Webから収集した以下の情報を基に、包括的で分かりやすい要約を作成してください。" ++ NL
  ++ NL
  ++ IND ++ py "# 検索クエリ:" ++ NL
  ++ IND ++ query ++ NL
  ++ NL
  ++ IND ++ py "# Webからの収集情報:" ++ NL
  ++ IND ++ collected ++ NL
  ++ NL
  ++ IND ++ py "# 生成する要約のルール:" ++ NL
  ++ IND ++ py "- マークダウン形式を使用して、重要なポイントを箇条書きで整理してください。" ++ NL
  ++ IND ++ py "- 専門用語には簡単な説明を加えてください。" ++ NL
  ++ IND ++ py "- 全体として、中立的かつ客観的な視点で記述してください。" ++ NL
  ++ NL
  ++ IND ++ py "# 要約:" ++ NL
  ++ IND.

(** [model.generate_content(prompt)] followed by [response.text]. *)
Definition generate (w : World) (prompt : str) : Eff str :=
  emit (EvGenerate prompt) ;;;
  lift (generate_content w prompt).

Definition MODEL_NAME : str := py "gemini-1.5-flash".

Definition get_summary (w : World) (api_key query : str)
    (search_results : list SearchResult) : Eff str :=
  emit (EvConfigure api_key) ;;;
  emit (EvModel MODEL_NAME) ;;;
  emit (EvProgress 0 1 (py "各Webページから情報を収集中...")) ;;;
  let* scraped_contents := scrape_loop w (length search_results) 0 search_results [] in
  emit EvProgressEmpty ;;;
  match scraped_contents with
  | [] => ret NOTHING_FETCHED
  | _ :: _ =>
    let prompt := summary_prompt query (concat scraped_contents) in
    try_except (generate w prompt)
      [(is_Exception, fun e => ret (SUMMARY_ERROR ++ exn_str e))]
  end.

(** *** Operations of [generate_quiz] on the parsed value *)

(** [type(v).__name__], as the messages of [TypeError] spell it. *)
Definition py_type_name (v : pyval) : str :=
  match v with
  | PyNone => py "NoneType"
  | PyBool _ => py "bool"
  | PyInt _ => py "int"
  | PyFloat _ _ => py "float"
  | PyStr _ => py "str"
  | PyList _ => py "list"
  | PyDict _ => py "dict"
  end.

(** [k in container] for a string [k].  The texts of the exceptions in
    this and the next two operations are those of CPython 3.12. *)
Definition py_in (k : str) (container : pyval) : py_result bool :=
  match container with
  | PyDict d => Returned (bool_decide (is_Some (d !! k)))
  | PyList items =>
    Returned (existsb (fun v => match v with PyStr s => str_eqb s k | _ => false end) items)
  | PyStr s => Returned (str_contains k s)
  | _ =>
    Raised {| exn_kind := TypeError;
              exn_str := py "argument of type '" ++ py_type_name container
                         ++ py "' is not iterable" |}
  end.

(** [all(k in container for k in keys)]: stops at the first False. *)
Fixpoint py_all_in (keys : list str) (container : pyval) : py_result bool :=
  match keys with
  | [] => Returned true
  | k :: keys' =>
    match py_in k container with
    | Returned true => py_all_in keys' container
    | Returned false => Returned false
    | Raised e => Raised e
    end
  end.

(** [container[key]] for a string [key] *)
Definition py_getitem (container : pyval) (key : str) : py_result pyval :=
  match container with
  | PyDict d =>
    match d !! key with
    | Some v => Returned v
    | None => Raised {| exn_kind := KeyError; exn_str := py "'" ++ key ++ py "'" |}
    end
  | PyList _ =>
    Raised {| exn_kind := TypeError;
              exn_str := py "list indices must be integers or slices, not str" |}
  | PyStr _ =>
    Raised {| exn_kind := TypeError;
              exn_str := py "string indices must be integers, not 'str'" |}
  | _ =>
    Raised {| exn_kind := TypeError;
              exn_str := py "'" ++ py_type_name container
                         ++ py "' object is not subscriptable" |}
  end.

(** [len(v)] *)
Definition py_len (v : pyval) : py_result nat :=
  match v with
  | PyStr s => Returned (length s)
  | PyList items => Returned (length items)
  | PyDict d => Returned (size d)
  | _ =>
    Raised {| exn_kind := TypeError;
              exn_str := py "object of type '" ++ py_type_name v ++ py "' has no len()" |}
  end.

(** [bool(v)], the test of [if quiz:] *)
Definition truthy (v : pyval) : bool :=
  match v with
  | PyNone => false
  | PyBool b => b
  | PyInt z => negb (Z.eqb z 0)
  | PyFloat _ is_zero => negb is_zero
  | PyStr s => non_empty s
  | PyList items => negb (Nat.eqb (length items) 0)
  | PyDict d => negb (Nat.eqb (size d) 0)
  end.

(** *** Session data *)

Record Source : Type := { source_title : str; source_href : str }.

Record HistoryItem : Type := {
  query : str;
  summary : str;
  sources : list Source
}.

Record Session : Type := {
  search_history : list HistoryItem;
  quizzes : gmap nat pyval;
  api_key : str
}.

Definition initial_session : Session :=
  {| search_history := []; quizzes := ∅; api_key := [] |}.

(** *** [generate_quiz] *)

Definition quoted (s : str) : str := DQ ++ s ++ DQ.

Definition quiz_prompt (history_item : HistoryItem) : str :=
  NL ++ IND ++ py "以下の検索履歴（検索クエリとAIによる要約）を基にして、その内容の理解度を測るための高品質な4択クイズを1問作成してください。" ++ NL
  ++ IND ++ py "必ず以下のJSON形式で、日本語で出力してください。" ++ NL
  ++ NL
  ++ IND ++ py "{" ++ NL
  ++ IND ++ py "  " ++ quoted (py "question") ++ py ": " ++ quoted (py "（ここに問題文）") ++ py "," ++ NL
  ++ IND ++ py "  " ++ quoted (py "options") ++ py ": ["
     ++ quoted (py "（選択肢1）") ++ py ", " ++ quoted (py "（選択肢2）") ++ py ", "
     ++ quoted (py "（選択肢3）") ++ py ", " ++ quoted (py "（選択肢4）") ++ py "]," ++ NL
  ++ IND ++ py "  " ++ quoted (py "answer") ++ py ": " ++ quoted (py "（ここに正解の選択肢の文字列）") ++ py "," ++ NL
  ++ IND ++ py "  " ++ quoted (py "explanation") ++ py ": "
     ++ quoted (py "（ここに、なぜそれが正解なのかを説明する丁寧な解説文）") ++ NL
  ++ IND ++ py "}" ++ NL
  ++ NL
  ++ IND ++ py "# 検索履歴:" ++ NL
  ++ IND ++ py "## クエリ:" ++ NL
  ++ IND ++ query history_item ++ NL
  ++ NL
  ++ IND ++ py "## 要約:" ++ NL
  ++ IND ++ summary history_item ++ NL
  ++ IND.

Definition FENCE_JSON : str := py "```json".
Definition FENCE : str := py "```".

(** [response.text.strip().lstrip("```json").rstrip("```").strip()] *)
Definition clean_response (text : str) : str :=
  str_strip (str_rstrip FENCE (str_lstrip FENCE_JSON (str_strip text))).

Definition REQUIRED_KEYS : list str :=
  [py "question"; py "options"; py "answer"; py "explanation"].

(** The condition of the [if]: [all(...) and len(quiz_data["options"]) == 4]. *)
Definition quiz_shape_ok (quiz_data : pyval) : py_result bool :=
  match py_all_in REQUIRED_KEYS quiz_data with
  | Returned true =>
    match py_getitem quiz_data (py "options") with
    | Returned options =>
      match py_len options with
      | Returned n => Returned (Nat.eqb n 4)
      | Raised e => Raised e
      end
    | Raised e => Raised e
    end
  | Returned false => Returned false
  | Raised e => Raised e
  end.

(** The [try] block of [generate_quiz]; None is [PyNone]. *)
Definition generate_quiz_try (w : World) (history_item : HistoryItem) : Eff pyval :=
  let* text := generate w (quiz_prompt history_item) in
  let cleaned_response := clean_response text in
  let* quiz_data := lift (json_loads w cleaned_response) in
  let* ok := lift (quiz_shape_ok quiz_data) in
  if ok then ret quiz_data else ret PyNone.

Definition generate_quiz (w : World) (api_key : str) (history_item : HistoryItem)
  : Eff pyval :=
  emit (EvConfigure api_key) ;;;
  emit (EvModel MODEL_NAME) ;;;
  try_except (generate_quiz_try w history_item)
    [(is_Exception, fun _ => ret PyNone)].

(** *** The two page handlers *)

Definition source_of (r : SearchResult) : Source :=
  {| source_title := title r; source_href := href r |}.

(** A click on the search button of the search page. *)
Definition on_search (w : World) (st : Session) (query : str) : Eff Session :=
  if negb (non_empty (api_key st)) then ret st
  else if negb (non_empty query)
  then emit (EvWrite (py "検索キーワードを入力してください。")) ;;; ret st
  else
    let* search_results := search_web w query 4 in
    match search_results with
    | [] =>
      emit (EvError (py "検索結果が見つかりませんでした。別のキーワードでお試しください。")) ;;;
      ret st
    | _ :: _ =>
      let* summary := get_summary w (api_key st) query search_results in
      emit (EvWrite (py "要約が完了しました！")) ;;;
      emit (EvWrite summary) ;;;
      let history_item :=
        {| query := query; summary := summary;
           sources := List.map source_of search_results |} in
      ret {| search_history := history_item :: search_history st;
             quizzes := quizzes st;
             api_key := api_key st |}
    end.

(** A click on the quiz button the history page draws for entry [i] of
    [enumerate(search_history)]; the button is drawn only while
    [i not in quizzes]. *)
Definition on_generate_quiz (w : World) (st : Session) (i : nat) : Eff Session :=
  match search_history st !! i with
  | None => ret st
  | Some item =>
    if bool_decide (is_Some (quizzes st !! i)) then ret st
    else if negb (non_empty (api_key st)) then ret st
    else
      let* quiz := generate_quiz w (api_key st) item in
      if truthy quiz
      then
        emit (EvWrite (py "クイズができました！ページを自動で更新します。")) ;;;
        emit (EvSleep 1000) ;;;
        ret {| search_history := search_history st;
               quizzes := <[i := quiz]> (quizzes st);
               api_key := api_key st |}
      else
        emit (EvError (py "クイズの生成に失敗しました。AIの応答が不正か、コンテンツが不十分な可能性があります。")) ;;;
        ret st
  end.

(** What the history page draws at position [i]: the entry, and the quiz
    found under the same [i]. *)
Definition drawn_at (st : Session) (i : nat) : option (HistoryItem * option pyval) :=
  match search_history st !! i with
  | Some item => Some (item, quizzes st !! i)
  | None => None
  end.

(** ** ai_studio_code.py, where it differs *)

Module Draft.

Definition DEFAULT_TIMEOUT : Z := 5.

Definition paragraph_content (paragraphs : list node) : str :=
  str_join NL
    (List.map (get_text [] false)
       (List.filter (fun p => Nat.ltb 50 (length (get_text [] false p))) paragraphs)).

Definition scrape_content_try (w : World) (url : str) (timeout : Z) : Eff str :=
  let* response := http_get w url timeout in
  raise_for_status response ;;;
  let paragraphs := soup_find_all (py "p") (soup response) in
  let content := paragraph_content paragraphs in
  let* content :=
    if non_empty content then ret content
    else
      let* region := attribute_of (find (py "body") (soup response)) (py "get_text") in
      ret (get_text NL true region) in
  ret (str_slice_to 3000 content).

Definition scrape_content (w : World) (url : str) (timeout : Z) : Eff str :=
  try_except (scrape_content_try w url timeout)
    [(is_a RequestException,
      fun e => ret (py "コンテンツの取得に失敗しました: " ++ url
                    ++ py " (エラー: " ++ exn_str e ++ py ")"));
     (is_Exception,
      fun e => ret (py "予期せぬエラーが発生しました: " ++ exn_str e))].

Fixpoint scrape_loop (w : World) (total i : nat) (results : list SearchResult)
    (all_content : str) : Eff str :=
  match results with
  | [] => ret all_content
  | result :: rest =>
    emit (EvWrite (py "(" ++ str_of_nat (i + 1) ++ py "/" ++ str_of_nat total
                   ++ py ") ページを読み込み中: " ++ href result)) ;;;
    let* content := scrape_content w (href result) DEFAULT_TIMEOUT in
    let all_content := all_content ++ source_block i result content in
    emit (EvSleep 1000) ;;;
    scrape_loop w total (S i) rest all_content
  end.

Definition get_summary (w : World) (api_key query : str)
    (search_results : list SearchResult) : Eff str :=
  emit (EvConfigure api_key) ;;;
  emit (EvModel MODEL_NAME) ;;;
  let* all_content := scrape_loop w (length search_results) 0 search_results [] in
  let prompt := summary_prompt query all_content in
  try_except (generate w prompt)
    [(is_Exception, fun e => ret (SUMMARY_ERROR ++ exn_str e))].

Definition generate_quiz (w : World) (api_key : str) (history_item : HistoryItem)
  : Eff pyval :=
  emit (EvConfigure api_key) ;;;
  emit (EvModel MODEL_NAME) ;;;
  try_except (generate_quiz_try w history_item)
    [(fun e => is_a JSONDecodeError e || is_a AttributeError e || is_a KeyError e,
      fun _ => ret PyNone)].

End Draft.

(** ** Notions used in the statements *)

Definition text_of (m : Eff str) : str :=
  match result_of m with
  | Returned s => s
  | Raised _ => []
  end.

Definition is_generate (ev : event) : bool :=
  match ev with
  | EvGenerate _ => true
  | _ => false
  end.

(** Number of calls to the generative service in a log. *)
Definition generate_calls (t : list event) : nat :=
  length (List.filter is_generate t).

(** The HTTP call failed: [requests.get] raised a [RequestException]
    (connection error, timeout, bad URL) or [raise_for_status] raised,
    which it does for a 4xx or 5xx status. *)
Definition http_call_failed (w : World) (url : str) (timeout : Z) : Prop :=
  (exists e, requests_get w url timeout = Raised e /\ exn_kind e = RequestException)
  \/ (exists r msg, requests_get w url timeout = Returned r /\ http_error r = Some msg).

(** The HTTP call went through with response [r]: [requests.get]
    returned it and [raise_for_status] did not raise. *)
Definition fetched (w : World) (url : str) (timeout : Z) (r : Response) : Prop :=
  requests_get w url timeout = Returned r /\ http_error r = None.

(** An extraction failed: the [try] block of [scrape_content] raised. *)
Definition extraction_failed (w : World) (url : str) : bool :=
  match result_of (scrape_content_try w url DEFAULT_TIMEOUT) with
  | Raised _ => true
  | Returned _ => false
  end.

(** What the loop of [get_summary] has appended after [results], entry
    [i] onwards. *)
Fixpoint collected (w : World) (i : nat) (results : list SearchResult) : list str :=
  match results with
  | [] => []
  | result :: rest =>
    let content := text_of (scrape_content w (href result) DEFAULT_TIMEOUT) in
    (if looks_fetched content then [source_block i result content] else [])
    ++ collected w (S i) rest
  end.

(** The world in which every request for [url] fails to connect. *)
Definition fail_at (w : World) (url : str) : World :=
  {| ddgs_text := ddgs_text w;
     requests_get := fun u timeout =>
       if str_eqb u url
       then Raised {| exn_kind := RequestException; exn_str := py "connection refused" |}
       else requests_get w u timeout;
     generate_content := generate_content w;
     json_loads := json_loads w |}.

(** The world in which the generative service answers [text]. *)
Definition with_response (w : World) (text : str) : World :=
  {| ddgs_text := ddgs_text w;
     requests_get := requests_get w;
     generate_content := fun _ => Returned text;
     json_loads := json_loads w |}.

Definition all_space (s : str) : bool := forallb is_space s.

(** The text of a JSON object: it opens with a brace and closes with one. *)
Definition json_object_text (J : str) : Prop :=
  exists inner, J = py "{" ++ inner ++ py "}".

(** The region and the paragraph text in the words of the description:
    the first of [main], [article], [body] that exists; the trimmed texts
    of the paragraphs of the region, those longer than 50, one per line. *)
Definition spec_region (soup : list node) : option node :=
  match find (py "main") soup with
  | Some m => Some m
  | None =>
    match find (py "article") soup with
    | Some a => Some a
    | None => find (py "body") soup
    end
  end.

Definition spec_paragraph_text (region : node) : str :=
  str_join NL
    (List.filter (fun t => Nat.ltb 50 (length t))
       (List.map (get_text [] true) (find_all (py "p") region))).

(** ** Example worlds *)

Definition url_a : str := py "https://a.example/article".
Definition url_b : str := py "https://b.example/missing".
Definition url_c : str := py "https://c.example/status".
Definition url_down : str := py "https://down.example/".

Definition long_paragraph : str := py "  " ++ repeat 120%N 230 ++ py " ".
Definition short_paragraph : str := py "too short".

(** A page with an [article] inside its [body]. *)
Definition page_a : list node :=
  [Tag (py "html")
     [Tag (py "body")
        [Tag (py "p") [NavigableString (py "outside the article, but also longer than fifty characters")];
         Tag (py "article")
           [Tag (py "h1") [NavigableString (py "Heading")];
            Tag (py "p") [NavigableString long_paragraph];
            Tag (py "p") [NavigableString short_paragraph]]]]].

(** A page that reports on fetch failures: its text opens with the words
    of the first failure message. *)
Definition page_c : list node :=
  [Tag (py "html")
     [Tag (py "body")
        [Tag (py "p") [NavigableString (py "コンテンツの取得に失敗した場合の対処方法")]]]].

(** A page with a [body] and no text. *)
Definition page_blank : list node := [Tag (py "html") [Tag (py "body") []]].

Definition ok_response (page : list node) : Response :=
  {| status_code := 200; http_error_text := []; soup := page |}.

Definition not_found_response : Response :=
  {| status_code := 404;
     http_error_text := py "404 Client Error: Not Found for url: https://b.example/missing";
     soup := [] |}.

(** A 300 (Multiple Choices) answer that carries a page: [requests] has
    nothing to follow and returns it as the response. *)
Definition multiple_choices_response : Response :=
  {| status_code := 300; http_error_text := []; soup := page_a |}.

(** The response to a request that succeeded with an empty body. *)
Definition empty_body_response : Response := ok_response [].

Definition sample_quiz_text : str :=
  py "{" ++ quoted (py "question") ++ py ":" ++ quoted (py "Q") ++ py ","
  ++ quoted (py "options") ++ py ":[" ++ quoted (py "A") ++ py "," ++ quoted (py "B")
  ++ py "," ++ quoted (py "C") ++ py "," ++ quoted (py "D") ++ py "],"
  ++ quoted (py "answer") ++ py ":" ++ quoted (py "B") ++ py ","
  ++ quoted (py "explanation") ++ py ":" ++ quoted (py "E") ++ py "}".

Definition sample_quiz_dict : gmap (list N) pyval :=
  <[py "question" := PyStr (py "Q")]>
    (<[py "options" := PyList [PyStr (py "A"); PyStr (py "B"); PyStr (py "C"); PyStr (py "D")]]>
       (<[py "answer" := PyStr (py "B")]>
          (<[py "explanation" := PyStr (py "E")]> ∅))).

Definition three_options_text : str := py "{three options}".

Definition three_options_dict : gmap (list N) pyval :=
  <[py "options" := PyList [PyStr (py "A"); PyStr (py "B"); PyStr (py "C")]]> sample_quiz_dict.

(** A stand-in for [json.loads] that knows two texts. *)
Definition sample_loads (text : str) : py_result pyval :=
  if str_eqb text sample_quiz_text then Returned (PyDict sample_quiz_dict)
  else if str_eqb text three_options_text then Returned (PyDict three_options_dict)
  else Raised {| exn_kind := JSONDecodeError; exn_str := py "Expecting value" |}.

Definition sample_get (url : str) (timeout : Z) : py_result Response :=
  if str_eqb url url_a then Returned (ok_response page_a)
  else if str_eqb url url_b
  then Returned not_found_response
  else if str_eqb url url_c then Returned (ok_response page_c)
  else Raised {| exn_kind := RequestException; exn_str := py "connection refused" |}.

Definition sample_search (query : str) (max_results : nat)
  : py_result (list SearchResult) :=
  Returned [ {| title := query; href := url_a; body := [] |} ].

(** The service answers a quiz prompt with the sample quiz in a fence and
    any other prompt with a fixed summary. *)
Definition sample_generate (prompt : str) : py_result str :=
  if str_contains (py "## クエリ:") prompt
  then Returned (FENCE_JSON ++ NL ++ sample_quiz_text ++ NL ++ FENCE)
  else Returned (py "- a summary").

Definition sample_world : World :=
  {| ddgs_text := sample_search;
     requests_get := sample_get;
     generate_content := sample_generate;
     json_loads := sample_loads |}.

(** The same world with the generative service out of quota. *)
Definition quota_world : World :=
  {| ddgs_text := sample_search;
     requests_get := sample_get;
     generate_content := fun _ =>
       Raised {| exn_kind := OtherException; exn_str := py "429 quota exceeded" |};
     json_loads := sample_loads |}.

(** A world in which every request is answered with status 300 and a
    page. *)
Definition multiple_choices_world : World :=
  {| ddgs_text := sample_search;
     requests_get := fun _ _ => Returned multiple_choices_response;
     generate_content := sample_generate;
     json_loads := sample_loads |}.

(** A world in which every request succeeds with an empty body. *)
Definition empty_body_world : World :=
  {| ddgs_text := sample_search;
     requests_get := fun _ _ => Returned empty_body_response;
     generate_content := sample_generate;
     json_loads := sample_loads |}.

Definition result_for (url : str) : SearchResult :=
  {| title := py "T"; href := url; body := [] |}.

Definition keyed_session : Session :=
  {| search_history := []; quizzes := ∅; api_key := py "key" |}.

Definition sample_item : HistoryItem :=
  {| query := py "A"; summary := py "- a summary"; sources := [] |}.

Definition session_of (m : Eff Session) : Session :=
  match result_of m with
  | Returned st => st
  | Raised _ => initial_session
  end.

(** One search, a quiz for its entry, then a second search. *)
Definition session_1 : Session := session_of (on_search sample_world keyed_session (py "A")).
Definition session_2 : Session := session_of (on_generate_quiz sample_world session_1 0).
Definition session_3 : Session := session_of (on_search sample_world session_2 (py "B")).

(** ** Readings of the log, and runs of the session *)

Definition is_http_get (ev : event) : bool :=
  match ev with
  | EvHttpGet _ _ => true
  | _ => false
  end.

Definition is_sleep (ev : event) : bool :=
  match ev with
  | EvSleep _ => true
  | _ => false
  end.

Definition is_search (ev : event) : bool :=
  match ev with
  | EvSearch _ _ => true
  | _ => false
  end.

Definition is_error (ev : event) : bool :=
  match ev with
  | EvError _ => true
  | _ => false
  end.

(** The counter and the total of a progress report. *)
Definition progress_of (ev : event) : option (nat * nat) :=
  match ev with
  | EvProgress done total _ => Some (done, total)
  | _ => None
  end.

(** What the user can do between two renderings of the page: type a key
    in the sidebar ([st.session_state.api_key = st.text_input(...)]),
    press the search button with a query, or press the quiz button of the
    history entry at position [i]. *)
Inductive action : Type :=
| TypeApiKey (key : str)
| ClickSearch (query : str)
| ClickQuiz (i : nat).

Definition on_api_key (st : Session) (key : str) : Session :=
  {| search_history := search_history st; quizzes := quizzes st; api_key := key |}.

Definition do_action (w : World) (st : Session) (a : action) : Eff Session :=
  match a with
  | TypeApiKey key => ret (on_api_key st key)
  | ClickSearch query => on_search w st query
  | ClickQuiz i => on_generate_quiz w st i
  end.

Fixpoint run (w : World) (st : Session) (actions : list action) : Eff Session :=
  match actions with
  | [] => ret st
  | a :: rest =>
    let* st' := do_action w st a in
    run w st' rest
  end.

(** A stored quiz is well placed and well shaped: its number is a
    position of the history, and it passes the test of [generate_quiz]. *)
Definition session_ok (st : Session) : Prop :=
  forall i quiz,
    quizzes st !! i = Some quiz ->
    i < length (search_history st) /\ quiz_shape_ok quiz = Returned true.

(** * Properties *)

(** ** Strings *)

Lemma chr_eqb_refl c : chr_eqb c c = true.
Proof. apply N.eqb_refl. Qed.

Lemma chr_eqb_eq a b : chr_eqb a b = true <-> a = b.
Proof. apply N.eqb_eq. Qed.

Lemma str_eqb_refl s : str_eqb s s = true.
Proof. induction s as [|c s IH]; simpl; [done|]. by rewrite chr_eqb_refl. Qed.

Lemma str_eqb_eq a b : str_eqb a b = true <-> a = b.
Proof.
  split; [|intros ->; apply str_eqb_refl].
  revert b; induction a as [|x a IH]; intros [|y b]; simpl; try done.
  rewrite andb_true_iff, chr_eqb_eq. intros [-> H]. f_equal. by apply IH.
Qed.

Lemma str_startswith_app prefix rest : str_startswith prefix (prefix ++ rest) = true.
Proof. induction prefix as [|c p IH]; simpl; [done|]. by rewrite chr_eqb_refl. Qed.

Lemma str_startswith_app_l p q rest :
  str_startswith p q = true -> str_startswith p (q ++ rest) = true.
Proof.
  revert q; induction p as [|c p IH]; intros [|d q]; simpl; try done.
  rewrite !andb_true_iff. intros [H1 H2]. split; [done|]. by apply IH.
Qed.

Lemma str_contains_startswith sub s :
  str_startswith sub s = true -> str_contains sub s = true.
Proof. destruct s; simpl; by intros ->. Qed.

Lemma str_contains_at sub before after : str_contains sub (before ++ sub ++ after) = true.
Proof.
  induction before as [|c before IH]; simpl.
  - apply str_contains_startswith, str_startswith_app.
  - rewrite IH. apply orb_true_r.
Qed.

Lemma str_contains_suffix sub before : str_contains sub (before ++ sub) = true.
Proof.
  rewrite <- (app_nil_r sub) at 2. apply str_contains_at.
Qed.

Lemma drop_while_all f a s : forallb f a = true -> drop_while f (a ++ s) = drop_while f s.
Proof.
  induction a as [|c a IH]; simpl; [done|].
  rewrite andb_true_iff. intros [-> H]. by apply IH.
Qed.

Lemma drop_while_stop f c s : f c = false -> drop_while f (c :: s) = c :: s.
Proof. simpl. by intros ->. Qed.

Lemma forallb_rev {A} (f : A -> bool) l : forallb f (rev l) = forallb f l.
Proof.
  induction l as [|x l IH]; simpl; [done|].
  rewrite forallb_app, IH. simpl. rewrite andb_true_r. apply andb_comm.
Qed.

Lemma drop_while_end_all f s a :
  forallb f a = true -> drop_while_end f (s ++ a) = drop_while_end f s.
Proof.
  intros H. unfold drop_while_end. rewrite rev_app_distr.
  rewrite drop_while_all; [done|]. by rewrite forallb_rev.
Qed.

Lemma drop_while_end_stop f s c : f c = false -> drop_while_end f (s ++ [c]) = s ++ [c].
Proof.
  intros H. unfold drop_while_end. rewrite rev_app_distr. simpl.
  rewrite H. simpl. by rewrite rev_involutive.
Qed.

(** A string of characters all accepted by [f], then one that is not:
    dropping from the right of [s ++ c :: a] leaves [s ++ [c]]. *)
Lemma drop_while_end_upto f s c a :
  f c = false -> forallb f a = true ->
  drop_while_end f (s ++ c :: a) = s ++ [c].
Proof.
  intros Hc Ha. replace (s ++ c :: a) with ((s ++ [c]) ++ a) by by rewrite <- app_assoc.
  rewrite drop_while_end_all by done. by apply drop_while_end_stop.
Qed.

Lemma drop_while_upto f a c s :
  forallb f a = true -> f c = false -> drop_while f (a ++ c :: s) = c :: s.
Proof. intros Ha Hc. rewrite drop_while_all by done. by apply drop_while_stop. Qed.

(** ** The effect monad *)

Lemma bind_returned {A B} t (a : A) (k : A -> Eff B) :
  bind (t, Returned a) k = (t ++ trace_of (k a), result_of (k a)).
Proof. unfold bind. by destruct (k a). Qed.

Lemma bind_raised {A B} t e (k : A -> Eff B) : bind (t, Raised e) k = (t, Raised e).
Proof. done. Qed.

Lemma eff_eta {A} (m : Eff A) : m = (trace_of m, result_of m).
Proof. by destruct m. Qed.

Lemma generate_calls_app t1 t2 :
  generate_calls (t1 ++ t2) = generate_calls t1 + generate_calls t2.
Proof. unfold generate_calls. by rewrite List.filter_app, length_app. Qed.

(** ** [scrape_content] *)

(** The [try] block, case by case. *)
Lemma scrape_content_try_eq w url timeout :
  scrape_content_try w url timeout =
  ([EvHttpGet url timeout],
   match requests_get w url timeout with
   | Raised e => Raised e
   | Returned r =>
     match http_error r with
     | Some msg => Raised {| exn_kind := RequestException; exn_str := msg |}
     | None =>
       match main_content_of (soup r) with
       | None =>
         Raised {| exn_kind := AttributeError;
                   exn_str := py "'NoneType' object has no attribute '"
                              ++ py "find_all" ++ py "'" |}
       | Some region =>
         let content := paragraph_content (find_all (py "p") region) in
         Returned (str_slice_to 4000
                     (if Nat.ltb (length content) 200
                      then get_text NL true region else content))
       end
     end
   end).
Proof.
  unfold scrape_content_try, http_get, emit, lift, raise_for_status, attribute_of.
  destruct (requests_get w url timeout) as [r|e]; simpl; [|done].
  destruct (http_error r); simpl; [done|].
  destruct (main_content_of (soup r)); simpl; done.
Qed.

Lemma scrape_content_trace w url timeout :
  trace_of (scrape_content w url timeout) = [EvHttpGet url timeout].
Proof.
  unfold scrape_content. rewrite scrape_content_try_eq.
  destruct (requests_get w url timeout) as [r|e]; simpl.
  - destruct (http_error r); simpl; [done|].
    destruct (main_content_of (soup r)); simpl; done.
  - destruct (is_a RequestException e); simpl; done.
Qed.

(** A failed HTTP call: the first failure message, with the URL. *)
Lemma scrape_content_http_failed w url timeout :
  http_call_failed w url timeout ->
  result_of (scrape_content w url timeout) = Returned (FETCH_FAILED ++ url).
Proof.
  unfold scrape_content. rewrite scrape_content_try_eq.
  intros [(e & -> & Hk)|(r & msg & -> & Hm)]; simpl.
  - unfold is_a. rewrite Hk. done.
  - rewrite Hm. done.
Qed.

(** Whatever the [try] block raises, a failure message with the URL comes back. *)
Lemma scrape_content_raised w url timeout e :
  result_of (scrape_content_try w url timeout) = Raised e ->
  result_of (scrape_content w url timeout) =
    Returned ((if is_a RequestException e then FETCH_FAILED else UNEXPECTED_FAILED) ++ url).
Proof.
  unfold scrape_content. destruct (scrape_content_try w url timeout) as [t r].
  simpl. intros ->. simpl. destruct (is_a RequestException e); done.
Qed.

Lemma scrape_content_returned w url timeout s :
  result_of (scrape_content_try w url timeout) = Returned s ->
  result_of (scrape_content w url timeout) = Returned s.
Proof.
  unfold scrape_content. destruct (scrape_content_try w url timeout) as [t r].
  simpl. by intros ->.
Qed.

Lemma scrape_content_total w url timeout :
  exists s, result_of (scrape_content w url timeout) = Returned s.
Proof.
  destruct (result_of (scrape_content_try w url timeout)) as [s|e] eqn:E.
  - exists s. by apply scrape_content_returned.
  - eexists. by apply scrape_content_raised.
Qed.

Lemma scrape_content_eq w url timeout :
  scrape_content w url timeout =
  ([EvHttpGet url timeout], Returned (text_of (scrape_content w url timeout))).
Proof.
  rewrite (eff_eta (scrape_content w url timeout)) at 1.
  rewrite scrape_content_trace. f_equal.
  unfold text_of. destruct (scrape_content_total w url timeout) as [s ->]. done.
Qed.

Lemma looks_fetched_fetch_failed rest : looks_fetched (FETCH_FAILED ++ rest) = false.
Proof.
  unfold looks_fetched.
  replace (str_startswith FAILED_PREFIX_1 (FETCH_FAILED ++ rest)) with true; [done|].
  symmetry. apply str_startswith_app_l. by vm_compute.
Qed.

Lemma looks_fetched_unexpected_failed rest :
  looks_fetched (UNEXPECTED_FAILED ++ rest) = false.
Proof.
  unfold looks_fetched.
  replace (str_startswith FAILED_PREFIX_2 (UNEXPECTED_FAILED ++ rest)) with true;
    [by rewrite andb_false_r|].
  symmetry. apply str_startswith_app_l. by vm_compute.
Qed.

(** A failed extraction is one [get_summary] leaves out. *)
Lemma extraction_failed_not_fetched w url :
  extraction_failed w url = true ->
  looks_fetched (text_of (scrape_content w url DEFAULT_TIMEOUT)) = false.
Proof.
  unfold extraction_failed, text_of.
  destruct (result_of (scrape_content_try w url DEFAULT_TIMEOUT)) as [s|e] eqn:E; [done|].
  intros _. rewrite (scrape_content_raised _ _ _ _ E).
  destruct (is_a RequestException e);
    [apply looks_fetched_fetch_failed | apply looks_fetched_unexpected_failed].
Qed.

Lemma status_is_error_iff r :
  status_is_error r = true <-> (400 <= status_code r < 600)%Z.
Proof.
  unfold status_is_error. rewrite andb_true_iff, Z.leb_le, Z.ltb_lt. reflexivity.
Qed.

Lemma http_error_of_error_status r :
  (400 <= status_code r < 600)%Z -> http_error r = Some (http_error_text r).
Proof. intros H. unfold http_error. by rewrite (proj2 (status_is_error_iff r) H). Qed.

Lemma http_error_of_other_status r :
  ~ (400 <= status_code r < 600)%Z -> http_error r = None.
Proof.
  intros H. unfold http_error. destruct (status_is_error r) eqn:E; [|reflexivity].
  by apply status_is_error_iff in E.
Qed.

(** C4, as the code has it: [scrape_content] always returns a string,
    never raises.  When [requests.get] raised a [RequestException] (a
    connection error) or the response has a 4xx or 5xx status, the string
    is a failure message, one that [get_summary] classifies as failed, and
    it contains the URL.  A response with any other status, non-2xx ones
    such as 300 or 304 included, is read like a successful one: the text
    of its page is returned. *)
Theorem scrape_content_never_raises_and_names_url w url timeout :
  (exists s, result_of (scrape_content w url timeout) = Returned s)
  /\ (((exists e, requests_get w url timeout = Raised e /\ exn_kind e = RequestException)
       \/ (exists r, requests_get w url timeout = Returned r
                     /\ (400 <= status_code r < 600)%Z)) ->
      exists s, result_of (scrape_content w url timeout) = Returned s
                /\ looks_fetched s = false
                /\ str_contains url s = true)
  /\ (forall r region,
        requests_get w url timeout = Returned r ->
        ~ (400 <= status_code r < 600)%Z ->
        main_content_of (soup r) = Some region ->
        result_of (scrape_content w url timeout) =
        Returned (str_slice_to 4000
                    (let content := paragraph_content (find_all (py "p") region) in
                     if Nat.ltb (length content) 200
                     then get_text NL true region else content))).
Proof.
  split; [apply scrape_content_total|]. split.
  - intros H. exists (FETCH_FAILED ++ url). split; [|split].
    + apply scrape_content_http_failed.
      destruct H as [H|(r & Hr & Hs)]; [by left|right].
      exists r, (http_error_text r). split; [exact Hr|].
      by apply http_error_of_error_status.
    + apply looks_fetched_fetch_failed.
    + apply str_contains_suffix.
  - intros r region Hr Hs Hm. apply scrape_content_returned.
    rewrite scrape_content_try_eq. simpl.
    by rewrite Hr, (http_error_of_other_status r Hs), Hm.
Qed.

Lemma scrape_content_never_raises_and_names_url_witness :
  (exists r, requests_get sample_world url_b DEFAULT_TIMEOUT = Returned r
             /\ (400 <= status_code r < 600)%Z)
  /\ exists s, result_of (scrape_content sample_world url_b DEFAULT_TIMEOUT) = Returned s
               /\ looks_fetched s = false
               /\ str_contains url_b s = true.
Proof.
  assert (H : exists r, requests_get sample_world url_b DEFAULT_TIMEOUT = Returned r
                        /\ (400 <= status_code r < 600)%Z).
  { exists not_found_response. split; [reflexivity|]. cbn [status_code not_found_response]. lia. }
  split; [exact H|].
  exact (proj1 (proj2 (scrape_content_never_raises_and_names_url sample_world url_b
                         DEFAULT_TIMEOUT)) (or_intror H)).
Defined.

(** A response with status 300 and a page: the status is not 2xx, and
    the text of the page comes back as a fetched text, not as a failure. *)
Lemma scrape_content_reads_non_2xx_page :
  requests_get multiple_choices_world url_a DEFAULT_TIMEOUT
  = Returned multiple_choices_response
  /\ status_code multiple_choices_response = 300%Z
  /\ status_is_2xx multiple_choices_response = false
  /\ result_of (scrape_content multiple_choices_world url_a DEFAULT_TIMEOUT)
     = Returned (repeat 120%N 230)
  /\ looks_fetched (repeat 120%N 230) = true.
Proof. vm_compute. repeat split. Qed.

(** A connection error gives the same message. *)
Example scrape_content_connection_error :
  result_of (scrape_content sample_world url_down DEFAULT_TIMEOUT)
  = Returned (FETCH_FAILED ++ url_down).
Proof. by vm_compute. Qed.

(** A page with no [main], [article] or [body] element has no region, and
    the attribute access on None is reported as an unexpected error. *)
Lemma scrape_content_no_region w url timeout r :
  fetched w url timeout r ->
  main_content_of (soup r) = None ->
  result_of (scrape_content w url timeout) = Returned (UNEXPECTED_FAILED ++ url).
Proof.
  intros [Hr He] Hm.
  assert (E : exists e, result_of (scrape_content_try w url timeout) = Raised e
                        /\ is_a RequestException e = false).
  { rewrite scrape_content_try_eq. simpl. rewrite Hr, He, Hm. eauto. }
  destruct E as (e & E & Hk). rewrite (scrape_content_raised _ _ _ _ E). by rewrite Hk.
Qed.

(** C3: a request that succeeds with an empty body.  The parsed tree is
    empty, so there is no region; [scrape_content] returns the second
    failure message, which [get_summary] classifies as failed, and not
    the empty string. *)
Theorem scrape_content_empty_body_is_reported_failed :
  fetched empty_body_world url_a DEFAULT_TIMEOUT empty_body_response /\
  soup empty_body_response = [] /\
  result_of (scrape_content empty_body_world url_a DEFAULT_TIMEOUT)
    = Returned (UNEXPECTED_FAILED ++ url_a) /\
  looks_fetched (UNEXPECTED_FAILED ++ url_a) = false /\
  result_of (scrape_content empty_body_world url_a DEFAULT_TIMEOUT) <> Returned [].
Proof.
  assert (F : fetched empty_body_world url_a DEFAULT_TIMEOUT empty_body_response)
    by (split; reflexivity).
  assert (R := scrape_content_no_region _ _ _ _ F eq_refl).
  split; [exact F|]. split; [reflexivity|]. split; [exact R|].
  split; [apply looks_fetched_unexpected_failed|].
  rewrite R. by vm_compute.
Qed.

(** With a [body] element and no text in it, the empty string comes back
    and counts as fetched. *)
Example scrape_content_blank_body :
  let w := {| ddgs_text := sample_search;
              requests_get := fun _ _ => Returned (ok_response page_blank);
              generate_content := sample_generate;
              json_loads := sample_loads |} in
  result_of (scrape_content w url_a DEFAULT_TIMEOUT) = Returned []
  /\ looks_fetched [] = true.
Proof. by vm_compute. Qed.

(** The text returned for a page that was fetched and has a region. *)
Lemma scrape_content_fetched w url timeout r region :
  fetched w url timeout r ->
  main_content_of (soup r) = Some region ->
  result_of (scrape_content w url timeout) =
  Returned (str_slice_to 4000
              (let content := paragraph_content (find_all (py "p") region) in
               if Nat.ltb (length content) 200 then get_text NL true region else content)).
Proof.
  intros [Hr He] Hm. apply scrape_content_returned.
  rewrite scrape_content_try_eq. simpl. by rewrite Hr, He, Hm.
Qed.

(** C5: for a page that was fetched and has a region, the text of the
    whole region is used exactly when the paragraph text has fewer than
    200 characters; otherwise the paragraph text is used.  Which of the
    two is used depends on that length alone. *)
Theorem scrape_content_falls_back_iff_short w url timeout r region :
  fetched w url timeout r ->
  main_content_of (soup r) = Some region ->
  let content := paragraph_content (find_all (py "p") region) in
  (length content < 200 ->
   result_of (scrape_content w url timeout)
   = Returned (str_slice_to 4000 (get_text NL true region)))
  /\ (200 <= length content ->
      result_of (scrape_content w url timeout) = Returned (str_slice_to 4000 content)).
Proof.
  intros F Hm content. rewrite (scrape_content_fetched _ _ _ _ _ F Hm). simpl.
  fold content. split; intros H.
  - apply Nat.ltb_lt in H. by rewrite H.
  - apply Nat.ltb_ge in H. by rewrite H.
Qed.

Lemma scrape_content_falls_back_iff_short_witness :
  fetched sample_world url_c DEFAULT_TIMEOUT (ok_response page_c) /\
  main_content_of page_c = Some (Tag (py "body")
    [Tag (py "p") [NavigableString (py "コンテンツの取得に失敗した場合の対処方法")]]) /\
  result_of (scrape_content sample_world url_c DEFAULT_TIMEOUT)
  = Returned (py "コンテンツの取得に失敗した場合の対処方法").
Proof.
  assert (F : fetched sample_world url_c DEFAULT_TIMEOUT (ok_response page_c))
    by (split; reflexivity).
  split; [exact F|]. split; [reflexivity|].
  refine (eq_trans
    (proj1 (scrape_content_falls_back_iff_short sample_world url_c DEFAULT_TIMEOUT
              (ok_response page_c) _ F eq_refl) _) _).
  - vm_compute. lia.
  - reflexivity.
Defined.

(** The second case of C5 on the sample article: 230 characters of
    paragraph text, returned as they are. *)
Example scrape_content_long_paragraphs :
  result_of (scrape_content sample_world url_a DEFAULT_TIMEOUT)
  = Returned (repeat 120%N 230).
Proof. by vm_compute. Qed.

(** ** The region and the paragraphs *)









(** The kept paragraph texts are exactly those longer than 50. *)
Lemma kept_paragraph_texts region t :
  In t (List.filter (fun t => Nat.ltb 50 (length t))
          (List.map (get_text [] true) (find_all (py "p") region)))
  <-> (exists p, In p (find_all (py "p") region) /\ get_text [] true p = t)
      /\ 50 < length t.
Proof.
  rewrite filter_In, in_map_iff, Nat.ltb_lt.
  split; intros [(p & H1 & H2) H3]; (split; [|done]); exists p; done.
Qed.



(** In the sample page the paragraph outside the article is not read. *)
Example paragraph_text_of_sample_article :
  (spec_paragraph_text <$> spec_region page_a) = Some (repeat 120%N 230).
Proof. vm_compute. reflexivity. Qed.

(** ** [get_summary] *)

Lemma scrape_loop_step w total i result rest acc :
  scrape_loop w total i (result :: rest) acc =
  let content := text_of (scrape_content w (href result) DEFAULT_TIMEOUT) in
  let acc' := if looks_fetched content
              then acc ++ [source_block i result content] else acc in
  let m := scrape_loop w total (S i) rest acc' in
  ([EvHttpGet (href result) DEFAULT_TIMEOUT; EvSleep 500;
    EvProgress (i + 1) total (py "情報収集中: " ++ title result)] ++ trace_of m,
   result_of m).
Proof.
  cbn [scrape_loop]. rewrite scrape_content_eq at 1.
  unfold emit. rewrite !bind_returned. cbn [trace_of result_of fst snd].
  rewrite ?bind_returned. cbn [trace_of result_of fst snd]. done.
Qed.

Lemma collected_cons w i r rest :
  collected w i (r :: rest) =
  (if looks_fetched (text_of (scrape_content w (href r) DEFAULT_TIMEOUT))
   then [source_block i r (text_of (scrape_content w (href r) DEFAULT_TIMEOUT))]
   else [])
  ++ collected w (S i) rest.
Proof. reflexivity. Qed.

(** The loop returns what [collected] describes, and logs no call to the
    generative service. *)
Lemma scrape_loop_eq w total results : forall i acc,
  result_of (scrape_loop w total i results acc) = Returned (acc ++ collected w i results)
  /\ List.filter is_generate (trace_of (scrape_loop w total i results acc)) = [].
Proof.
  induction results as [|result rest IH]; intros i acc.
  - simpl. by rewrite app_nil_r.
  - rewrite scrape_loop_step. cbn zeta. cbn [trace_of result_of fst snd].
    destruct (IH (S i)
      (if looks_fetched (text_of (scrape_content w (href result) DEFAULT_TIMEOUT))
       then acc ++ [source_block i result
                      (text_of (scrape_content w (href result) DEFAULT_TIMEOUT))]
       else acc)) as [-> Ht].
    split.
    + rewrite collected_cons. f_equal.
      destruct (looks_fetched _); by rewrite <- ?app_assoc.
    + rewrite List.filter_app, Ht. done.
Qed.

(** The result of [get_summary], and its calls to the generative service. *)
Lemma get_summary_eq w key q results :
  result_of (get_summary w key q results) =
    match collected w 0 results with
    | [] => Returned NOTHING_FETCHED
    | _ :: _ =>
      match generate_content w (summary_prompt q (concat (collected w 0 results))) with
      | Returned s => Returned s
      | Raised e => Returned (SUMMARY_ERROR ++ exn_str e)
      end
    end
  /\ List.filter is_generate (trace_of (get_summary w key q results)) =
     match collected w 0 results with
     | [] => []
     | _ :: _ => [EvGenerate (summary_prompt q (concat (collected w 0 results)))]
     end.
Proof.
  unfold get_summary, emit. rewrite !bind_returned. cbn [trace_of result_of fst snd].
  destruct (scrape_loop_eq w (length results) results 0 []) as [Hr Ht].
  rewrite (eff_eta (scrape_loop w (length results) 0 results [])).
  rewrite Hr. cbn [app]. rewrite !bind_returned. cbn [trace_of result_of fst snd].
  cbn [List.filter is_generate]. rewrite !List.filter_app, Ht.
  cbn [List.filter is_generate app].
  destruct (collected w 0 results) as [|c cs] eqn:Ec; [done|].
  unfold generate, emit, lift. rewrite bind_returned. cbn [trace_of result_of fst snd].
  destruct (generate_content w _) as [s|e]; simpl; done.
Qed.

Lemma collected_nil_of_failed w results : forall i,
  Forall (fun r => extraction_failed w (href r) = true) results ->
  collected w i results = [].
Proof.
  induction results as [|r rest IH]; intros i H; [reflexivity|].
  inversion H as [|? ? Hr Hrest]; subst. rewrite collected_cons.
  rewrite (extraction_failed_not_fetched _ _ Hr). apply IH, Hrest.
Qed.

Lemma contrapose_bool (b c : bool) : (b = true -> c = false) -> c = true -> b = false.
Proof. destruct b, c; intros H1 H2; try reflexivity; try discriminate; by apply H1. Qed.

Lemma looks_fetched_succeeded w url :
  looks_fetched (text_of (scrape_content w url DEFAULT_TIMEOUT)) = true ->
  extraction_failed w url = false.
Proof. exact (contrapose_bool _ _ (extraction_failed_not_fetched w url)). Qed.

Lemma collected_cons_succeeded w results : forall i,
  collected w i results <> [] ->
  Exists (fun r => extraction_failed w (href r) = false) results.
Proof.
  induction results as [|r rest IH]; intros i H.
  - exfalso. apply H. reflexivity.
  - rewrite collected_cons in H.
    destruct (looks_fetched (text_of (scrape_content w (href r) DEFAULT_TIMEOUT))) eqn:E.
    + apply Exists_cons_hd. by apply looks_fetched_succeeded.
    + apply Exists_cons_tl. exact (IH _ H).
Qed.

(** C1: if every extraction of a run fails, [get_summary] returns the
    fixed text saying that nothing could be fetched and the log has no
    call to the generative service; and in every run the service is
    called at most once, and only if some extraction succeeded. *)
Theorem get_summary_generates_only_after_an_extraction w key q results :
  (Forall (fun r => extraction_failed w (href r) = true) results ->
   result_of (get_summary w key q results) = Returned NOTHING_FETCHED
   /\ generate_calls (trace_of (get_summary w key q results)) = 0)
  /\ generate_calls (trace_of (get_summary w key q results)) <= 1
  /\ (generate_calls (trace_of (get_summary w key q results)) <> 0 ->
      Exists (fun r => extraction_failed w (href r) = false) results).
Proof.
  destruct (get_summary_eq w key q results) as [Hr Ht].
  unfold generate_calls. rewrite Hr, Ht. split; [|split].
  - intros H. by rewrite (collected_nil_of_failed _ _ 0 H).
  - destruct (collected w 0 results); simpl; lia.
  - intros H. apply (collected_cons_succeeded w results 0).
    destruct (collected w 0 results); [done|done].
Qed.

Lemma get_summary_generates_only_after_an_extraction_witness :
  Forall (fun r => extraction_failed sample_world (href r) = true)
    [result_for url_b; result_for url_down]
  /\ result_of (get_summary sample_world (py "key") (py "q")
                  [result_for url_b; result_for url_down])
     = Returned NOTHING_FETCHED
  /\ generate_calls (trace_of (get_summary sample_world (py "key") (py "q")
                                 [result_for url_b; result_for url_down])) = 0.
Proof.
  assert (H : Forall (fun r => extraction_failed sample_world (href r) = true)
                [result_for url_b; result_for url_down]).
  { repeat constructor. }
  split; [exact H|].
  exact (proj1 (get_summary_generates_only_after_an_extraction sample_world
                  (py "key") (py "q") [result_for url_b; result_for url_down]) H).
Defined.

(** One source fetched, one not: the service is called once. *)
Example get_summary_one_source_fetched :
  generate_calls (trace_of (get_summary sample_world (py "key") (py "q")
                              [result_for url_b; result_for url_a])) = 1
  /\ result_of (get_summary sample_world (py "key") (py "q")
                  [result_for url_b; result_for url_a]) = Returned (py "- a summary").
Proof. by vm_compute. Qed.

(** C9: [get_summary] always returns a string; and when the call it made
    to the generative service raised, whatever the exception, the string
    is the error text of the summary followed by the message of the
    exception. *)
Theorem get_summary_generation_error_is_the_summary w key q results :
  (exists s, result_of (get_summary w key q results) = Returned s)
  /\ forall prompt e,
       In (EvGenerate prompt) (trace_of (get_summary w key q results)) ->
       generate_content w prompt = Raised e ->
       result_of (get_summary w key q results) = Returned (SUMMARY_ERROR ++ exn_str e).
Proof.
  destruct (get_summary_eq w key q results) as [Hr Ht]. split.
  - rewrite Hr. destruct (collected w 0 results); [eauto|].
    destruct (generate_content w _); eauto.
  - intros prompt e Hin He.
    assert (Hf : In (EvGenerate prompt)
                   (List.filter is_generate (trace_of (get_summary w key q results))))
      by (apply filter_In; done).
    rewrite Ht in Hf. rewrite Hr.
    destruct (collected w 0 results) as [|c cs]; [done|].
    destruct Hf as [Hf|[]].
    assert (Hp : prompt = summary_prompt q (concat (c :: cs))) by congruence.
    rewrite Hp in He. rewrite He. reflexivity.
Qed.

Lemma get_summary_generation_error_is_the_summary_witness :
  let run := get_summary quota_world (py "key") (py "q") [result_for url_a] in
  let prompt := summary_prompt (py "q") (concat (collected quota_world 0 [result_for url_a])) in
  In (EvGenerate prompt) (trace_of run)
  /\ result_of run = Returned (SUMMARY_ERROR ++ py "429 quota exceeded").
Proof.
  intros run prompt.
  assert (Hin : In (EvGenerate prompt) (trace_of run)).
  { vm_compute. do 7 right. left. reflexivity. }
  split; [exact Hin|].
  exact (proj2 (get_summary_generation_error_is_the_summary quota_world (py "key") (py "q")
                  [result_for url_a]) prompt
           {| exn_kind := OtherException; exn_str := py "429 quota exceeded" |}
           Hin eq_refl).
Defined.

(** ** Texts that open like a failure message *)

Lemma scrape_content_same_response w1 w2 url timeout :
  requests_get w1 url timeout = requests_get w2 url timeout ->
  scrape_content w1 url timeout = scrape_content w2 url timeout.
Proof.
  intros H. unfold scrape_content. rewrite !scrape_content_try_eq. by rewrite H.
Qed.

Lemma requests_get_fail_at w url u timeout :
  requests_get (fail_at w url) u timeout =
  if str_eqb u url
  then Raised {| exn_kind := RequestException; exn_str := py "connection refused" |}
  else requests_get w u timeout.
Proof. reflexivity. Qed.

Lemma scrape_content_fail_at_other w url u timeout :
  str_eqb u url = false ->
  scrape_content (fail_at w url) u timeout = scrape_content w u timeout.
Proof.
  intros H. apply scrape_content_same_response.
  by rewrite requests_get_fail_at, H.
Qed.

Lemma scrape_content_fail_at_same w url timeout :
  result_of (scrape_content (fail_at w url) url timeout) = Returned (FETCH_FAILED ++ url).
Proof.
  apply scrape_content_http_failed. left. eexists. split.
  - rewrite requests_get_fail_at, str_eqb_refl. reflexivity.
  - reflexivity.
Qed.

Lemma looks_fetched_false_iff s :
  looks_fetched s = false <->
  str_startswith FAILED_PREFIX_1 s = true \/ str_startswith FAILED_PREFIX_2 s = true.
Proof.
  unfold looks_fetched.
  destruct (str_startswith FAILED_PREFIX_1 s), (str_startswith FAILED_PREFIX_2 s);
    simpl; intuition congruence.
Qed.

(** A source whose text is not taken adds nothing to the list. *)
Lemma collected_skips w i r rest :
  looks_fetched (text_of (scrape_content w (href r) DEFAULT_TIMEOUT)) = false ->
  collected w i (r :: rest) = collected w (S i) rest.
Proof. intros H. rewrite collected_cons, H. reflexivity. Qed.

Lemma collected_fail_at w url results : forall i,
  looks_fetched (text_of (scrape_content w url DEFAULT_TIMEOUT)) = false ->
  collected (fail_at w url) i results = collected w i results.
Proof.
  induction results as [|r rest IH]; intros i H; [reflexivity|].
  destruct (str_eqb (href r) url) eqn:E.
  - apply str_eqb_eq in E. rewrite !collected_skips.
    + by apply IH.
    + by rewrite E.
    + rewrite E. unfold text_of. rewrite scrape_content_fail_at_same.
      apply looks_fetched_fetch_failed.
  - rewrite !collected_cons. rewrite (scrape_content_fail_at_other _ _ _ _ E).
    by rewrite IH.
Qed.

(** C10: [get_summary] takes a source or leaves it out by the first
    characters of the text [scrape_content] returned.  So a page that was
    fetched and read without error, but whose text opens with one of the
    two prefixes, adds no block; and the whole run gives the same blocks,
    the same calls to the generative service and the same summary as the
    run in which the request for that page fails. *)
Theorem get_summary_leaves_out_text_with_failure_prefix w key q results url :
  extraction_failed w url = false ->
  (str_startswith FAILED_PREFIX_1 (text_of (scrape_content w url DEFAULT_TIMEOUT)) = true
   \/ str_startswith FAILED_PREFIX_2 (text_of (scrape_content w url DEFAULT_TIMEOUT)) = true) ->
  (forall i r rest, href r = url -> collected w i (r :: rest) = collected w (S i) rest)
  /\ result_of (scrape_loop w (length results) 0 results []) = Returned (collected w 0 results)
  /\ collected (fail_at w url) 0 results = collected w 0 results
  /\ List.filter is_generate (trace_of (get_summary (fail_at w url) key q results))
     = List.filter is_generate (trace_of (get_summary w key q results))
  /\ result_of (get_summary (fail_at w url) key q results)
     = result_of (get_summary w key q results).
Proof.
  intros _ Hp. apply looks_fetched_false_iff in Hp.
  pose proof (collected_fail_at w url results 0 Hp) as Hc.
  destruct (get_summary_eq w key q results) as [Hr Ht].
  destruct (get_summary_eq (fail_at w url) key q results) as [Hr' Ht'].
  split; [|split; [|split; [|split]]].
  - intros i r rest <-. by apply collected_skips.
  - by destruct (scrape_loop_eq w (length results) results 0 []) as [-> _].
  - exact Hc.
  - rewrite Ht, Ht', Hc. reflexivity.
  - rewrite Hr, Hr', Hc. reflexivity.
Qed.

Lemma get_summary_leaves_out_text_with_failure_prefix_witness :
  extraction_failed sample_world url_c = false
  /\ str_startswith FAILED_PREFIX_1
       (text_of (scrape_content sample_world url_c DEFAULT_TIMEOUT)) = true
  /\ result_of (get_summary (fail_at sample_world url_c) (py "key") (py "q")
                  [result_for url_a; result_for url_c])
     = result_of (get_summary sample_world (py "key") (py "q")
                    [result_for url_a; result_for url_c]).
Proof.
  assert (H1 : extraction_failed sample_world url_c = false) by (vm_compute; reflexivity).
  assert (H2 : str_startswith FAILED_PREFIX_1
                 (text_of (scrape_content sample_world url_c DEFAULT_TIMEOUT)) = true)
    by (vm_compute; reflexivity).
  pose proof (get_summary_leaves_out_text_with_failure_prefix sample_world (py "key") (py "q")
                [result_for url_a; result_for url_c] url_c H1 (or_introl H2)) as T.
  split; [exact H1|]. split; [exact H2|].
  exact (proj2 (proj2 (proj2 (proj2 T)))).
Defined.

(** The sample page about fetch failures is left out of the blocks. *)
Example collected_leaves_out_sample_page :
  collected sample_world 0 [result_for url_a; result_for url_c]
  = collected sample_world 0 [result_for url_a].
Proof. vm_compute. reflexivity. Qed.

(** ** [generate_quiz] *)

Lemma generate_quiz_try_eq w item :
  generate_quiz_try w item =
  ([EvGenerate (quiz_prompt item)],
   match generate_content w (quiz_prompt item) with
   | Raised e => Raised e
   | Returned text =>
     match json_loads w (clean_response text) with
     | Raised e => Raised e
     | Returned quiz_data =>
       match quiz_shape_ok quiz_data with
       | Raised e => Raised e
       | Returned true => Returned quiz_data
       | Returned false => Returned PyNone
       end
     end
   end).
Proof.
  unfold generate_quiz_try, generate, emit, lift. rewrite bind_returned.
  cbn [trace_of result_of fst snd].
  destruct (generate_content w (quiz_prompt item)) as [text|e]; [|reflexivity].
  rewrite bind_returned. cbn [trace_of result_of fst snd].
  destruct (json_loads w (clean_response text)) as [qd|e]; [|reflexivity].
  rewrite bind_returned. cbn [trace_of result_of fst snd].
  destruct (quiz_shape_ok qd) as [[|]|e]; reflexivity.
Qed.

(** [generate_quiz] in full: its log, and a result that is the parsed
    value when it has the shape asked for and None in every other case. *)
Lemma generate_quiz_eq w key item :
  generate_quiz w key item =
  ([EvConfigure key; EvModel MODEL_NAME; EvGenerate (quiz_prompt item)],
   match generate_content w (quiz_prompt item) with
   | Raised _ => Returned PyNone
   | Returned text =>
     match json_loads w (clean_response text) with
     | Raised _ => Returned PyNone
     | Returned quiz_data =>
       match quiz_shape_ok quiz_data with
       | Returned true => Returned quiz_data
       | _ => Returned PyNone
       end
     end
   end).
Proof.
  unfold generate_quiz, emit. rewrite !bind_returned. cbn [trace_of result_of fst snd].
  rewrite generate_quiz_try_eq.
  destruct (generate_content w (quiz_prompt item)) as [text|e]; [|reflexivity].
  destruct (json_loads w (clean_response text)) as [qd|e]; [|reflexivity].
  destruct (quiz_shape_ok qd) as [[|]|e]; reflexivity.
Qed.

(** *** Stripping the fence *)

Lemma space_not_in_fence_json c : is_space c = true -> chr_in FENCE_JSON c = false.
Proof.
  intros Hs. destruct (chr_in FENCE_JSON c) eqn:E; [|reflexivity].
  unfold chr_in in E. change FENCE_JSON with [96; 96; 96; 106; 115; 111; 110]%N in E.
  cbn [existsb] in E. rewrite !orb_true_iff in E.
  destruct E as [E|[E|[E|[E|[E|[E|[E|E]]]]]]]; try discriminate E;
    apply chr_eqb_eq in E; subst c; discriminate Hs.
Qed.

Lemma space_not_in_fence c : is_space c = true -> chr_in FENCE c = false.
Proof.
  intros Hs. destruct (chr_in FENCE c) eqn:E; [|reflexivity].
  unfold chr_in in E. change FENCE with [96; 96; 96]%N in E.
  cbn [existsb] in E. rewrite !orb_true_iff in E.
  destruct E as [E|[E|[E|E]]]; try discriminate E;
    apply chr_eqb_eq in E; subst c; discriminate Hs.
Qed.

(** Nothing is dropped from the left of a string that opens, after
    white space, with a brace. *)
Lemma lstrip_fence_stops b rest :
  all_space b = true ->
  str_lstrip FENCE_JSON (b ++ 123%N :: rest) = b ++ 123%N :: rest.
Proof.
  intros Hb. unfold str_lstrip. destruct b as [|x b]; [reflexivity|].
  cbn [all_space forallb] in Hb. apply andb_true_iff in Hb as [Hx _].
  cbn [app]. apply drop_while_stop. by apply space_not_in_fence_json.
Qed.

(** Nothing is dropped from the right of a string that closes, before
    white space, with a brace. *)
Lemma rstrip_fence_stops pre c :
  all_space c = true ->
  str_rstrip FENCE (pre ++ 125%N :: c) = pre ++ 125%N :: c.
Proof.
  intros Hc. unfold str_rstrip, drop_while_end.
  rewrite <- (rev_involutive (pre ++ 125%N :: c)) at 2. f_equal.
  rewrite rev_app_distr. cbn [rev]. rewrite <- app_assoc. cbn [app].
  assert (Hr : forallb is_space (rev c) = true) by by rewrite forallb_rev.
  destruct (rev c) as [|x rc]; [reflexivity|].
  cbn [forallb] in Hr. apply andb_true_iff in Hr as [Hx _].
  cbn [app]. apply drop_while_stop. by apply space_not_in_fence.
Qed.

Ltac list_norm := repeat (first [rewrite <- app_assoc | progress cbn [app]]).

Lemma strip_between a x mid y b :
  all_space a = true -> all_space b = true ->
  is_space x = false -> is_space y = false ->
  str_strip (a ++ x :: mid ++ y :: b) = x :: mid ++ [y].
Proof.
  intros Ha Hb Hx Hy. unfold str_strip.
  rewrite drop_while_upto by done.
  apply (drop_while_end_upto is_space (x :: mid) y b); done.
Qed.

Lemma strip_padded a mid b :
  all_space a = true -> all_space b = true ->
  str_strip (a ++ 123%N :: mid ++ 125%N :: b) = 123%N :: mid ++ [125%N].
Proof. intros Ha Hb. by apply strip_between. Qed.



Lemma json_object_text_braces J :
  json_object_text J -> exists inner, J = 123%N :: inner ++ [125%N].
Proof. intros [inner ->]. by exists inner. Qed.

(** The text of an object, with white space around it, cleans to itself. *)
Lemma clean_response_plain a b J :
  json_object_text J -> all_space a = true -> all_space b = true ->
  clean_response (a ++ J ++ b) = J.
Proof.
  intros HJ Ha Hb. apply json_object_text_braces in HJ as [inner ->].
  unfold clean_response.
  replace (a ++ (123%N :: inner ++ [125%N]) ++ b)
    with (a ++ 123%N :: inner ++ 125%N :: b) by (list_norm; reflexivity).
  rewrite strip_padded by done.
  rewrite (lstrip_fence_stops [] (inner ++ [125%N]) eq_refl : str_lstrip FENCE_JSON
             (123%N :: inner ++ [125%N]) = 123%N :: inner ++ [125%N]).
  rewrite (rstrip_fence_stops (123%N :: inner) [] eq_refl : str_rstrip FENCE
             (123%N :: inner ++ [125%N]) = 123%N :: inner ++ [125%N]).
  apply (strip_padded [] inner []); done.
Qed.




Lemma py_all_in_dict keys d :
  py_all_in keys (PyDict d)
  = Returned (forallb (fun k => bool_decide (is_Some (d !! k))) keys).
Proof.
  induction keys as [|k keys IH]; [reflexivity|].
  cbn [py_all_in py_in forallb]. destruct (bool_decide (is_Some (d !! k))); [exact IH|reflexivity].
Qed.

Lemma quiz_shape_ok_dict d :
  quiz_shape_ok (PyDict d) =
  if forallb (fun k => bool_decide (is_Some (d !! k))) REQUIRED_KEYS
  then match d !! py "options" with
       | Some options =>
         match py_len options with
         | Returned n => Returned (Nat.eqb n 4)
         | Raised e => Raised e
         end
       | None =>
         Raised {| exn_kind := KeyError; exn_str := py "'" ++ py "options" ++ py "'" |}
       end
  else Returned false.
Proof.
  unfold quiz_shape_ok. rewrite py_all_in_dict.
  destruct (forallb _ REQUIRED_KEYS); [|reflexivity].
  unfold py_getitem. destruct (d !! py "options") as [v|]; reflexivity.
Qed.





(** A fence tagged js is removed whole, since j and s are among the
    characters [lstrip] drops. *)
Example generate_quiz_js_fence_accepted :
  result_of (generate_quiz
               (with_response sample_world
                  (FENCE ++ py "js" ++ NL ++ sample_quiz_text ++ NL ++ FENCE))
               (py "key") sample_item)
  = Returned (PyDict sample_quiz_dict).
Proof. vm_compute. reflexivity. Qed.

(** The fenced sample answer and the bare one give the same quiz. *)
Example generate_quiz_sample_both_forms :
  result_of (generate_quiz (with_response sample_world sample_quiz_text)
               (py "key") sample_item)
  = Returned (PyDict sample_quiz_dict)
  /\ result_of (generate_quiz sample_world (py "key") sample_item)
     = Returned (PyDict sample_quiz_dict).
Proof. vm_compute. split; reflexivity. Qed.

(** A click on the quiz button changes nothing when [generate_quiz]
    returns None. *)
Lemma on_generate_quiz_none w st i item :
  search_history st !! i = Some item ->
  result_of (generate_quiz w (api_key st) item) = Returned PyNone ->
  result_of (on_generate_quiz w st i) = Returned st.
Proof.
  intros Hi Hq. unfold on_generate_quiz. rewrite Hi.
  destruct (bool_decide (is_Some (quizzes st !! i))); [reflexivity|].
  destruct (negb (non_empty (api_key st))); [reflexivity|].
  rewrite (eff_eta (generate_quiz w (api_key st) item)), Hq, bind_returned.
  reflexivity.
Qed.

Lemma generate_quiz_result_any_key w key key' item :
  result_of (generate_quiz w key item) = result_of (generate_quiz w key' item).
Proof. by rewrite !generate_quiz_eq. Qed.




(** An answer that is no JSON at all. *)
Example generate_quiz_not_json :
  result_of (generate_quiz (with_response sample_world (py "I cannot help with that."))
               (py "key") sample_item) = Returned PyNone.
Proof. vm_compute. reflexivity. Qed.

(** ** The session *)

Lemma search_web_total w q n : exists rs, result_of (search_web w q n) = Returned rs.
Proof.
  unfold search_web, emit, lift. rewrite bind_returned. cbn [trace_of result_of fst snd].
  destruct (ddgs_text w q n) as [rs|e]; [by exists rs|by exists []].
Qed.

Lemma get_summary_total w key q results :
  exists s, result_of (get_summary w key q results) = Returned s.
Proof.
  destruct (get_summary_eq w key q results) as [-> _].
  destruct (collected w 0 results); [eauto|].
  destruct (generate_content w _); eauto.
Qed.

(** A search either leaves the session as it was or puts one new entry,
    for the query, in front of the history; the quiz mapping is not
    touched. *)
Lemma on_search_adds_in_front w st q :
  exists st', result_of (on_search w st q) = Returned st'
  /\ (st' = st
      \/ exists item, query item = q
                      /\ search_history st' = item :: search_history st
                      /\ quizzes st' = quizzes st).
Proof.
  unfold on_search.
  destruct (negb (non_empty (api_key st))); [by exists st; split; [|left]|].
  destruct (negb (non_empty q)); [by exists st; split; [|left]|].
  destruct (search_web_total w q 4) as [rs Hrs].
  rewrite (eff_eta (search_web w q 4)), Hrs, bind_returned.
  destruct rs as [|r rs]; [by exists st; split; [|left]|].
  destruct (get_summary_total w (api_key st) q (r :: rs)) as [s Hs].
  rewrite (eff_eta (get_summary w (api_key st) q (r :: rs))), Hs, bind_returned.
  unfold emit. rewrite bind_returned. cbn [trace_of result_of fst snd ret].
  eexists. split; [reflexivity|]. right.
  exists {| query := q; summary := s; sources := List.map source_of (r :: rs) |}.
  split; [|split]; reflexivity.
Qed.

(** After a search that added an entry, every older entry is one place
    further down, and every quiz is still under the number it had: the
    quiz stored under [i] is now drawn with another entry. *)
Lemma new_entry_shifts_entries_not_quizzes st st' item i :
  search_history st' = item :: search_history st ->
  quizzes st' = quizzes st ->
  search_history st' !! S i = search_history st !! i
  /\ quizzes st' !! i = quizzes st !! i
  /\ drawn_at st' 0 = Some (item, quizzes st !! 0).
Proof.
  intros Hh Hq. unfold drawn_at. rewrite Hh, Hq. done.
Qed.

(** C2: one search for A, a quiz for its entry, then a search for B.
    The new entry is put in front, so the first part of the statement
    holds; but the quiz made from the entry of A, stored under 0, is then
    drawn with the entry of B, and the entry of A, now at 1, has none. *)
Theorem quiz_stays_at_index_while_entries_move :
  (query <$> search_history session_2 !! 0) = Some (py "A")
  /\ result_of (generate_quiz sample_world (api_key session_1)
                  (default sample_item (search_history session_1 !! 0)))
     = Returned (PyDict sample_quiz_dict)
  /\ quizzes session_2 !! 0 = Some (PyDict sample_quiz_dict)
  /\ (query <$> search_history session_3 !! 0) = Some (py "B")
  /\ search_history session_3 !! 1 = search_history session_2 !! 0
  /\ quizzes session_3 !! 0 = Some (PyDict sample_quiz_dict)
  /\ quizzes session_3 !! 1 = None
  /\ (fst <$> drawn_at session_3 0) <> (fst <$> drawn_at session_2 0).
Proof. vm_compute. repeat split; try reflexivity. intros H. discriminate H. Qed.

(** ** The draft *)

(** The draft has no test on the texts: with every extraction failed it
    still calls the generative service, with the failure messages in the
    prompt. *)
Example draft_get_summary_always_generates :
  generate_calls (trace_of (Draft.get_summary sample_world (py "key") (py "q")
                              [result_for url_b; result_for url_down])) = 1.
Proof. vm_compute. reflexivity. Qed.

(** The draft reads the paragraphs of the whole page, not of a region,
    and does not trim them. *)
Example draft_scrape_content_whole_page :
  result_of (Draft.scrape_content sample_world url_a Draft.DEFAULT_TIMEOUT)
  = Returned (py "outside the article, but also longer than fifty characters"
              ++ NL ++ long_paragraph).
Proof. vm_compute. reflexivity. Qed.

(** The draft names the URL in the message for a failed HTTP call too. *)
Lemma draft_scrape_content_names_url w url timeout :
  http_call_failed w url timeout ->
  exists s, result_of (Draft.scrape_content w url timeout) = Returned s
            /\ str_startswith FAILED_PREFIX_1 s = true
            /\ str_contains url s = true.
Proof.
  intros H.
  assert (E : exists e, Draft.scrape_content_try w url timeout
                        = ([EvHttpGet url timeout], Raised e)
                        /\ is_a RequestException e = true).
  { unfold Draft.scrape_content_try, http_get, emit, lift. rewrite bind_returned.
    cbn [trace_of result_of fst snd].
    destruct H as [(e & -> & Hk)|(r & msg & -> & Hm)].
    - exists e. split; [reflexivity|]. unfold is_a. by rewrite Hk.
    - rewrite bind_returned. unfold raise_for_status. rewrite Hm.
      eexists. split; reflexivity. }
  destruct E as (e & E & Hk). unfold Draft.scrape_content. rewrite E.
  cbn [try_except find_handler]. rewrite Hk. cbn [ret result_of snd].
  eexists. split; [reflexivity|]. split.
  - apply (str_startswith_app_l FAILED_PREFIX_1 (py "コンテンツの取得に失敗しました: ")).
    vm_compute. reflexivity.
  - apply str_contains_at.
Qed.

(** The draft catches three classes only: a parsed value that is not a
    dict makes its [generate_quiz] raise, where [app.py] returns None. *)
Example draft_generate_quiz_raises :
  let w := {| ddgs_text := sample_search;
              requests_get := sample_get;
              generate_content := fun _ => Returned (py "5");
              json_loads := fun _ => Returned (PyInt 5) |} in
  (exists e, result_of (Draft.generate_quiz w (py "key") sample_item) = Raised e
             /\ exn_kind e = TypeError)
  /\ result_of (generate_quiz w (py "key") sample_item) = Returned PyNone.
Proof. split; [eexists|]; vm_compute; split; reflexivity || reflexivity. Qed.

(** * Further properties of the code *)

(** ** [search_web] *)

(** X1: [search_web] never raises.  It asks the provider once, with the
    query and the limit it was given; what the provider returns is passed
    on unchanged with no error shown, and when the provider raises, the
    result is the empty list and one error message, which carries the
    text of the exception, is shown. *)
Theorem search_web_returns_results_or_nothing w q n :
  List.filter is_search (trace_of (search_web w q n)) = [EvSearch q n]
  /\ match ddgs_text w q n with
     | Returned rs =>
       result_of (search_web w q n) = Returned rs
       /\ List.filter is_error (trace_of (search_web w q n)) = []
     | Raised e =>
       result_of (search_web w q n) = Returned []
       /\ List.filter is_error (trace_of (search_web w q n))
          = [EvError (py "検索中にエラーが発生しました: " ++ exn_str e)]
     end.
Proof.
  unfold search_web, emit, lift. rewrite bind_returned. cbn [trace_of result_of fst snd].
  destruct (ddgs_text w q n) as [rs|e]; split; try split; reflexivity.
Qed.

(** ** [scrape_content]: bounds and requests *)

Lemma length_slice_to n s : length (str_slice_to n s) <= n.
Proof. unfold str_slice_to. rewrite length_take. lia. Qed.

(** X2: the text of an extraction that went through is at most 4000
    characters long, and it is the beginning of the text of the region or
    of its paragraphs. *)
Theorem scrape_content_text_is_capped w url timeout s :
  result_of (scrape_content_try w url timeout) = Returned s ->
  result_of (scrape_content w url timeout) = Returned s
  /\ length s <= 4000
  /\ exists r region,
       fetched w url timeout r
       /\ main_content_of (soup r) = Some region
       /\ (s = str_slice_to 4000 (get_text NL true region)
           \/ s = str_slice_to 4000 (paragraph_content (find_all (py "p") region))).
Proof.
  intros H. split; [by apply scrape_content_returned|].
  rewrite scrape_content_try_eq in H. cbn [result_of snd] in H.
  destruct (requests_get w url timeout) as [r|e] eqn:Er; [|discriminate H].
  destruct (http_error r) as [msg|] eqn:Ee; [discriminate H|].
  destruct (main_content_of (soup r)) as [region|] eqn:Em; [|discriminate H].
  cbn zeta in H.
  set (text := if Nat.ltb (length (paragraph_content (find_all (py "p") region))) 200
               then get_text NL true region
               else paragraph_content (find_all (py "p") region)) in H.
  assert (Hs : s = str_slice_to 4000 text) by congruence.
  split; [rewrite Hs; apply length_slice_to|].
  exists r, region. split; [by split|]. split; [exact Em|].
  rewrite Hs. unfold text. destruct (Nat.ltb _ 200); [by left|by right].
Qed.

Lemma scrape_content_text_is_capped_witness :
  result_of (scrape_content sample_world url_a DEFAULT_TIMEOUT) = Returned (repeat 120%N 230)
  /\ length (repeat 120%N 230) <= 4000.
Proof.
  pose proof (scrape_content_text_is_capped sample_world url_a DEFAULT_TIMEOUT
                (repeat 120%N 230) eq_refl) as H.
  exact (conj (proj1 H) (proj1 (proj2 H))).
Defined.

(** ** [get_summary]: the order of the work *)

Lemma get_summary_trace w key q results :
  trace_of (get_summary w key q results) =
  EvConfigure key :: EvModel MODEL_NAME
  :: EvProgress 0 1 (py "各Webページから情報を収集中...")
  :: trace_of (scrape_loop w (length results) 0 results [])
  ++ EvProgressEmpty
  :: match collected w 0 results with
     | [] => []
     | _ :: _ => [EvGenerate (summary_prompt q (concat (collected w 0 results)))]
     end.
Proof.
  unfold get_summary, emit. rewrite !bind_returned. cbn [trace_of result_of fst snd].
  destruct (scrape_loop_eq w (length results) results 0 []) as [Hr _].
  rewrite (eff_eta (scrape_loop w (length results) 0 results [])).
  rewrite Hr. cbn [app]. rewrite !bind_returned. cbn [trace_of result_of fst snd app].
  do 3 f_equal. f_equal. f_equal.
  destruct (collected w 0 results) as [|c cs]; [reflexivity|].
  unfold generate, emit, lift. rewrite bind_returned. cbn [trace_of result_of fst snd].
  destruct (generate_content w _); reflexivity.
Qed.

Lemma scrape_loop_requests w total results : forall i acc,
  List.filter is_http_get (trace_of (scrape_loop w total i results acc))
  = List.map (fun r => EvHttpGet (href r) DEFAULT_TIMEOUT) results
  /\ List.filter is_sleep (trace_of (scrape_loop w total i results acc))
     = repeat (EvSleep 500) (length results)
  /\ omap progress_of (trace_of (scrape_loop w total i results acc))
     = List.map (fun k => (k, total)) (seq (i + 1) (length results)).
Proof.
  induction results as [|r rest IH]; intros i acc; [by repeat split|].
  rewrite scrape_loop_step. cbn zeta. cbn [trace_of fst].
  match goal with |- context [trace_of (scrape_loop w total (S i) rest ?a)] =>
    destruct (IH (S i) a) as (H1 & H2 & H3) end.
  split; [|split].
  - rewrite List.filter_app, H1. reflexivity.
  - rewrite List.filter_app, H2. reflexivity.
  - rewrite omap_app, H3. cbn [length seq List.map].
    replace (S i + 1) with (S (i + 1)) by lia. reflexivity.
Qed.

(** X3: one run of [get_summary] requests every result once, in the
    order of the list, each with the ten-second timeout; it pauses half a
    second after each request; and it reports progress first as 0 of 1 and
    then as 1, 2, ..., N of N, where N is the number of results. *)
Theorem get_summary_visits_sources_in_order w key q results :
  List.filter is_http_get (trace_of (get_summary w key q results))
  = List.map (fun r => EvHttpGet (href r) DEFAULT_TIMEOUT) results
  /\ List.filter is_sleep (trace_of (get_summary w key q results))
     = repeat (EvSleep 500) (length results)
  /\ omap progress_of (trace_of (get_summary w key q results))
     = (0, 1) :: List.map (fun k => (k, length results)) (seq 1 (length results)).
Proof.
  rewrite get_summary_trace.
  destruct (scrape_loop_requests w (length results) results 0 []) as (H1 & H2 & H3).
  set (loop := trace_of (scrape_loop w (length results) 0 results [])) in *.
  set (tail := match collected w 0 results with
               | [] => []
               | _ :: _ => [EvGenerate (summary_prompt q (concat (collected w 0 results)))]
               end).
  assert (Ht : List.filter is_http_get tail = [] /\ List.filter is_sleep tail = []
               /\ omap progress_of tail = []).
  { unfold tail. destruct (collected w 0 results); repeat split. }
  destruct Ht as (T1 & T2 & T3).
  change (EvConfigure key :: EvModel MODEL_NAME
          :: EvProgress 0 1 (py "各Webページから情報を収集中...")
          :: loop ++ EvProgressEmpty :: tail)
    with ([EvConfigure key; EvModel MODEL_NAME;
           EvProgress 0 1 (py "各Webページから情報を収集中...")]
          ++ loop ++ [EvProgressEmpty] ++ tail).
  rewrite !List.filter_app, !omap_app, H1, H2, H3, T1, T2, T3.
  cbn [List.filter is_http_get is_sleep app]. rewrite !app_nil_r.
  repeat split.
Qed.

(** ** [get_summary]: what goes into the prompt *)

Lemma str_startswith_inv p s : str_startswith p s = true -> exists rest, s = p ++ rest.
Proof.
  revert s; induction p as [|c p IH]; intros s H; [by exists s|].
  destruct s as [|d s]; [discriminate H|]. cbn [str_startswith] in H.
  apply andb_true_iff in H as [Hc Hp]. apply chr_eqb_eq in Hc as ->.
  destruct (IH _ Hp) as [rest ->]. by exists rest.
Qed.

Lemma str_contains_iff sub s :
  str_contains sub s = true <-> exists before after, s = before ++ sub ++ after.
Proof.
  split; [|intros (b & a & ->); apply str_contains_at].
  induction s as [|c s IH]; cbn [str_contains]; rewrite orb_true_iff.
  - intros [H|H]; [|discriminate H].
    destruct (str_startswith_inv _ _ H) as [rest ->]. by exists [], rest.
  - intros [H|H].
    + destruct (str_startswith_inv _ _ H) as [rest ->]. by exists [], rest.
    + destruct (IH H) as (b & a & ->). by exists (c :: b), a.
Qed.

Lemma str_contains_inside sub mid before after :
  str_contains sub mid = true -> str_contains sub (before ++ mid ++ after) = true.
Proof.
  intros H. apply str_contains_iff in H as (b & a & ->). apply str_contains_iff.
  exists (before ++ b), (a ++ after). by rewrite <- !app_assoc.
Qed.

Lemma str_contains_concat block blocks :
  In block blocks -> str_contains block (concat blocks) = true.
Proof.
  induction blocks as [|b bs IH]; intros H; [destruct H|].
  cbn [concat]. destruct H as [->|H].
  - apply (str_contains_at block [] (concat bs)).
  - rewrite <- (app_nil_r (concat bs)).
    apply (str_contains_inside block (concat bs) b []). by apply IH.
Qed.

Lemma summary_prompt_shape :
  exists p1 p2 p3, forall q collected_text,
    summary_prompt q collected_text = p1 ++ q ++ p2 ++ collected_text ++ p3.
Proof.
  exists (NL ++ IND ++ py "ユーザーの検索クエリと、Webから収集した以下の情報を基に、包括的で分かりやすい要約を作成してください。"
          ++ NL ++ NL ++ IND ++ py "# 検索クエリ:" ++ NL ++ IND).
  exists (NL ++ NL ++ IND ++ py "# Webからの収集情報:" ++ NL ++ IND).
  eexists. intros q c. unfold summary_prompt. rewrite <- !app_assoc. reflexivity.
Qed.

(** X4: the prompt [get_summary] sends to the generative service is the
    fixed template around the query and the collected blocks: the query
    occurs in it as it was typed, and so does every block of a source that
    was taken. *)
Theorem get_summary_prompt_embeds_query_and_blocks w key q results prompt :
  In (EvGenerate prompt) (trace_of (get_summary w key q results)) ->
  prompt = summary_prompt q (concat (collected w 0 results))
  /\ str_contains q prompt = true
  /\ forall block, In block (collected w 0 results) -> str_contains block prompt = true.
Proof.
  intros Hin.
  assert (Hf : In (EvGenerate prompt)
                 (List.filter is_generate (trace_of (get_summary w key q results))))
    by (apply filter_In; done).
  destruct (get_summary_eq w key q results) as [_ Ht]. rewrite Ht in Hf.
  assert (Hp : prompt = summary_prompt q (concat (collected w 0 results))).
  { destruct (collected w 0 results); [destruct Hf|].
    destruct Hf as [Hf|[]]. congruence. }
  split; [exact Hp|]. rewrite Hp.
  destruct summary_prompt_shape as (p1 & p2 & p3 & Hshape). rewrite Hshape.
  split.
  - apply str_contains_at.
  - intros block Hb. apply str_contains_concat in Hb.
    apply (str_contains_inside block (concat (collected w 0 results)) (p1 ++ q ++ p2) p3)
      in Hb.
    by rewrite <- !app_assoc in Hb.
Qed.

Lemma get_summary_prompt_embeds_query_and_blocks_witness :
  let run := get_summary sample_world (py "key") (py "q") [result_for url_a] in
  let prompt := summary_prompt (py "q") (concat (collected sample_world 0 [result_for url_a])) in
  In (EvGenerate prompt) (trace_of run) /\ str_contains (py "q") prompt = true.
Proof.
  intros run prompt.
  assert (Hin : In (EvGenerate prompt) (trace_of run)).
  { vm_compute. do 7 right. left. reflexivity. }
  split; [exact Hin|].
  exact (proj1 (proj2 (get_summary_prompt_embeds_query_and_blocks sample_world (py "key")
                         (py "q") [result_for url_a] prompt Hin))).
Defined.

(** ** [get_summary]: the numbering of the blocks *)

Lemma collected_members w results : forall k block,
  In block (collected w k results) <->
  exists j r, results !! j = Some r
              /\ looks_fetched (text_of (scrape_content w (href r) DEFAULT_TIMEOUT)) = true
              /\ block = source_block (k + j) r
                           (text_of (scrape_content w (href r) DEFAULT_TIMEOUT)).
Proof.
  induction results as [|r rest IH]; intros k block.
  - split; [intros []|]. intros (j & r & H & _). by rewrite lookup_nil in H.
  - rewrite collected_cons, in_app_iff, IH. split.
    + intros [H|(j & r' & Hj & Hl & ->)].
      * destruct (looks_fetched _) eqn:E; [|destruct H].
        destruct H as [<-|[]]. exists 0, r. split; [done|]. split; [done|].
        by rewrite Nat.add_0_r.
      * exists (S j), r'. split; [done|]. split; [done|]. f_equal. lia.
    + intros (j & r' & Hj & Hl & ->). destruct j as [|j].
      * injection Hj as <-. left. rewrite Hl. left. by rewrite Nat.add_0_r.
      * right. exists j, r'. split; [done|]. split; [done|]. f_equal. lia.
Qed.

Lemma collected_length w results : forall k, length (collected w k results) <= length results.
Proof.
  induction results as [|r rest IH]; intros k; [done|].
  rewrite collected_cons, length_app. specialize (IH (S k)).
  destruct (looks_fetched _); cbn [length]; lia.
Qed.

(** X5: the blocks [get_summary] collects are, in the order of the
    results, the blocks of the sources whose text does not open with a
    failure prefix; each one carries the number of its source in the
    original list, counted from 1, so a source that is left out leaves a
    gap in the numbers; and there are at most as many blocks as results. *)
Theorem get_summary_blocks_keep_source_numbers w results :
  exists blocks,
    result_of (scrape_loop w (length results) 0 results []) = Returned blocks
    /\ length blocks <= length results
    /\ forall block,
         In block blocks <->
         exists j r, results !! j = Some r
                     /\ looks_fetched (text_of (scrape_content w (href r) DEFAULT_TIMEOUT))
                        = true
                     /\ block = source_block j r
                                  (text_of (scrape_content w (href r) DEFAULT_TIMEOUT)).
Proof.
  exists (collected w 0 results).
  destruct (scrape_loop_eq w (length results) results 0 []) as [Hr _].
  split; [exact Hr|]. split; [apply collected_length|].
  intros block. apply (collected_members w results 0 block).
Qed.

(** The second of two sources is numbered 2 although the first is left out. *)
Example block_number_after_a_failed_source :
  collected sample_world 0 [result_for url_b; result_for url_a]
  = [source_block 1 (result_for url_a) (repeat 120%N 230)]
  /\ str_startswith (py "--- ソース 2 (T) ---")
       (source_block 1 (result_for url_a) (repeat 120%N 230)) = true.
Proof. vm_compute. split; reflexivity. Qed.

(** ** [generate_quiz]: what can come back *)

Lemma quiz_shape_ok_true_inv v :
  quiz_shape_ok v = Returned true ->
  exists d options,
    v = PyDict d
    /\ Forall (fun k => is_Some (d !! k)) REQUIRED_KEYS
    /\ d !! py "options" = Some options
    /\ py_len options = Returned 4.
Proof.
  intros H. destruct v as [| | | | |items|d].
  1-4: discriminate H.
  - unfold quiz_shape_ok in H.
    destruct (py_all_in REQUIRED_KEYS (PyStr s)) as [[|]|]; discriminate H.
  - unfold quiz_shape_ok in H.
    destruct (py_all_in REQUIRED_KEYS (PyList items)) as [[|]|]; discriminate H.
  - rewrite quiz_shape_ok_dict in H.
    destruct (forallb _ REQUIRED_KEYS) eqn:Hall; [|discriminate H].
    destruct (d !! py "options") as [options|] eqn:Hopt; [|discriminate H].
    destruct (py_len options) as [n|e] eqn:Hlen; [|discriminate H].
    exists d, options. split; [reflexivity|]. split; [|split; [exact Hopt|]].
    + apply Forall_forall. intros k Hk. rewrite forallb_forall in Hall.
      apply (bool_decide_eq_true_1 (is_Some (d !! k))), Hall. by apply list_elem_of_In.
    + destruct (Nat.eqb n 4) eqn:E; [|discriminate H].
      apply Nat.eqb_eq in E. subst n. exact Hlen.
Qed.

Lemma truthy_of_shape_ok v : quiz_shape_ok v = Returned true -> truthy v = true.
Proof.
  intros H. destruct (quiz_shape_ok_true_inv v H) as (d & options & -> & _ & Hopt & _).
  cbn [truthy]. destruct (Nat.eqb (size d) 0) eqn:E; [|reflexivity].
  apply Nat.eqb_eq, map_size_empty_iff in E. subst d.
  rewrite lookup_empty in Hopt. discriminate Hopt.
Qed.

(** X6: [generate_quiz] never raises and calls the generative service
    once.  What it returns is either None or the very value [json.loads]
    gave for the cleaned answer, and in the second case that value is a
    dict that has the four keys and whose [options] value has length 4,
    so the test [if quiz:] of the caller succeeds on it. *)
Theorem generate_quiz_returns_none_or_checked_dict w key item :
  trace_of (generate_quiz w key item)
  = [EvConfigure key; EvModel MODEL_NAME; EvGenerate (quiz_prompt item)]
  /\ exists v,
       result_of (generate_quiz w key item) = Returned v
       /\ (v = PyNone
           \/ (exists text d options,
                 generate_content w (quiz_prompt item) = Returned text
                 /\ json_loads w (clean_response text) = Returned v
                 /\ v = PyDict d
                 /\ Forall (fun k => is_Some (d !! k)) REQUIRED_KEYS
                 /\ d !! py "options" = Some options
                 /\ py_len options = Returned 4
                 /\ truthy v = true)).
Proof.
  rewrite generate_quiz_eq. split; [reflexivity|]. cbn [result_of snd].
  destruct (generate_content w (quiz_prompt item)) as [text|e]; [|by exists PyNone; split; [|left]].
  destruct (json_loads w (clean_response text)) as [v|e] eqn:Hl;
    [|by exists PyNone; split; [|left]].
  destruct (quiz_shape_ok v) as [[|]|e] eqn:Hs; try (by exists PyNone; split; [|left]).
  exists v. split; [reflexivity|]. right.
  destruct (quiz_shape_ok_true_inv v Hs) as (d & options & Hv & Hk & Ho & Hn).
  exists text, d, options. repeat split; try done. by apply truthy_of_shape_ok.
Qed.

Lemma str_contains_here sub rest : str_contains sub (sub ++ rest) = true.
Proof. apply (str_contains_at sub [] rest). Qed.

Lemma str_contains_skip sub x rest :
  str_contains sub rest = true -> str_contains sub (x ++ rest) = true.
Proof.
  intros H. rewrite <- (app_nil_r rest). by apply (str_contains_inside sub rest x []).
Qed.

(** X7: the prompt of [generate_quiz] contains the query and the summary
    of the history entry as they are stored, and nothing else of the
    entry is used: two entries with the same query and summary, whatever
    their sources, give the same prompt and, under the same key, the same
    run. *)
Theorem generate_quiz_uses_query_and_summary_only w key item item' :
  str_contains (query item) (quiz_prompt item) = true
  /\ str_contains (summary item) (quiz_prompt item) = true
  /\ (query item = query item' -> summary item = summary item' ->
      quiz_prompt item = quiz_prompt item'
      /\ generate_quiz w key item = generate_quiz w key item').
Proof.
  split; [|split].
  - unfold quiz_prompt.
    repeat first [apply str_contains_here | apply str_contains_skip].
  - unfold quiz_prompt.
    repeat first [apply str_contains_here | apply str_contains_skip].
  - intros Hq Hs.
    assert (Hp : quiz_prompt item = quiz_prompt item')
      by (unfold quiz_prompt; by rewrite Hq, Hs).
    split; [exact Hp|]. by rewrite !generate_quiz_eq, Hp.
Qed.

Lemma generate_quiz_uses_query_and_summary_only_witness :
  quiz_prompt sample_item
  = quiz_prompt {| query := py "A"; summary := py "- a summary";
                   sources := [{| source_title := py "T"; source_href := url_a |}] |}.
Proof.
  exact (proj1 (proj2 (proj2 (generate_quiz_uses_query_and_summary_only sample_world
                                (py "key") sample_item
                                {| query := py "A"; summary := py "- a summary";
                                   sources := [{| source_title := py "T";
                                                  source_href := url_a |}] |}))
                  eq_refl eq_refl)).
Defined.

(** X8: the test of [generate_quiz] looks at nothing but the presence of
    the four keys and the length of the [options] value.  Any dict that
    passes is returned as the quiz: the [answer] need not be one of the
    options, and [options] need not be a list (a string of four
    characters has length 4 as well). *)
Theorem generate_quiz_checks_keys_and_length_only w key item text d options :
  generate_content w (quiz_prompt item) = Returned text ->
  json_loads w (clean_response text) = Returned (PyDict d) ->
  Forall (fun k => is_Some (d !! k)) REQUIRED_KEYS ->
  d !! py "options" = Some options ->
  py_len options = Returned 4 ->
  result_of (generate_quiz w key item) = Returned (PyDict d).
Proof.
  intros Ht Hl Hk Ho Hn. rewrite generate_quiz_eq. cbn [result_of snd].
  rewrite Ht, Hl, quiz_shape_ok_dict, Ho, Hn.
  assert (Hall : forallb (fun k => bool_decide (is_Some (d !! k))) REQUIRED_KEYS = true).
  { apply forallb_forall. intros k Hin. apply bool_decide_eq_true.
    rewrite Forall_forall in Hk. apply Hk. by apply list_elem_of_In. }
  by rewrite Hall.
Qed.

Lemma generate_quiz_checks_keys_and_length_only_witness :
  let odd := <[py "answer" := PyStr (py "none of these")]>
               (<[py "options" := PyStr (py "ABCD")]> sample_quiz_dict) in
  let w := {| ddgs_text := sample_search;
              requests_get := sample_get;
              generate_content := fun _ => Returned sample_quiz_text;
              json_loads := fun _ => Returned (PyDict odd) |} in
  result_of (generate_quiz w (py "key") sample_item) = Returned (PyDict odd).
Proof.
  intros odd w.
  refine (generate_quiz_checks_keys_and_length_only w (py "key") sample_item
            sample_quiz_text odd (PyStr (py "ABCD")) eq_refl eq_refl _ _ eq_refl).
  - repeat constructor; eexists; vm_compute; reflexivity.
  - vm_compute. reflexivity.
Defined.

(** ** The search page *)

Lemma search_web_eq w q n :
  search_web w q n =
  match ddgs_text w q n with
  | Returned rs => ([EvSearch q n], Returned rs)
  | Raised e =>
    ([EvSearch q n; EvError (py "検索中にエラーが発生しました: " ++ exn_str e)], Returned [])
  end.
Proof.
  unfold search_web, emit, lift. rewrite bind_returned. cbn [trace_of result_of fst snd].
  destruct (ddgs_text w q n); reflexivity.
Qed.

(** X9: a press on the search button without a key or without a query
    does nothing: the session is returned as it is, no search is made, no
    page is requested and the generative service is not called. *)
Theorem on_search_needs_key_and_query w st q :
  non_empty (api_key st) = false \/ non_empty q = false ->
  result_of (on_search w st q) = Returned st
  /\ List.filter is_search (trace_of (on_search w st q)) = []
  /\ List.filter is_http_get (trace_of (on_search w st q)) = []
  /\ generate_calls (trace_of (on_search w st q)) = 0.
Proof.
  intros H. unfold on_search.
  destruct (non_empty (api_key st)) eqn:Ek; cbn [negb].
  - destruct H as [H|H]; [discriminate H|]. rewrite H. cbn [negb]. by repeat split.
  - by repeat split.
Qed.

Lemma on_search_needs_key_and_query_witness :
  result_of (on_search sample_world keyed_session []) = Returned keyed_session.
Proof.
  exact (proj1 (on_search_needs_key_and_query sample_world keyed_session []
                  (or_intror eq_refl))).
Defined.

(** X10: when the provider finds nothing, or fails, the search ends
    there: the session is unchanged (no history entry), no page is
    requested and the generative service is not called; the user is shown
    an error. *)
Theorem on_search_without_results w st q :
  non_empty (api_key st) = true -> non_empty q = true ->
  (ddgs_text w q 4 = Returned [] \/ exists e, ddgs_text w q 4 = Raised e) ->
  result_of (on_search w st q) = Returned st
  /\ List.filter is_http_get (trace_of (on_search w st q)) = []
  /\ generate_calls (trace_of (on_search w st q)) = 0
  /\ In (EvError (py "検索結果が見つかりませんでした。別のキーワードでお試しください。"))
       (trace_of (on_search w st q)).
Proof.
  intros Hk Hq Hd. unfold on_search. rewrite Hk, Hq. cbn [negb].
  rewrite search_web_eq.
  destruct Hd as [->|[e ->]]; rewrite bind_returned;
    cbn [trace_of result_of fst snd emit ret bind app List.filter is_http_get];
    repeat split; try reflexivity.
  - right. by left.
  - right. right. by left.
Qed.

Lemma on_search_without_results_witness :
  let w := {| ddgs_text := fun _ _ => Returned [];
              requests_get := sample_get;
              generate_content := sample_generate;
              json_loads := sample_loads |} in
  result_of (on_search w keyed_session (py "A")) = Returned keyed_session.
Proof.
  intros w.
  exact (proj1 (on_search_without_results w keyed_session (py "A") eq_refl eq_refl
                  (or_introl eq_refl))).
Defined.

Lemma on_search_found w st q r rs s :
  non_empty (api_key st) = true -> non_empty q = true ->
  ddgs_text w q 4 = Returned (r :: rs) ->
  result_of (get_summary w (api_key st) q (r :: rs)) = Returned s ->
  on_search w st q =
  ([EvSearch q 4] ++ trace_of (get_summary w (api_key st) q (r :: rs))
   ++ [EvWrite (py "要約が完了しました！"); EvWrite s],
   Returned {| search_history :=
                 {| query := q; summary := s; sources := List.map source_of (r :: rs) |}
                 :: search_history st;
               quizzes := quizzes st;
               api_key := api_key st |}).
Proof.
  intros Hk Hq Hd Hs. unfold on_search. rewrite Hk, Hq. cbn [negb].
  rewrite search_web_eq, Hd, bind_returned.
  rewrite (eff_eta (get_summary w (api_key st) q (r :: rs))), Hs.
  rewrite bind_returned. unfold emit. rewrite !bind_returned.
  cbn [trace_of result_of fst snd ret app]. rewrite ?app_nil_r. reflexivity.
Qed.

(** X11: when the provider returns at least one result, the search puts
    exactly one new entry in front of the history.  The entry holds the
    query, the text [get_summary] returned, and one source (title and
    link) per result, in the order of the results, also for the results
    whose page could not be read; the older entries, the quizzes and the
    key are untouched. *)
Theorem on_search_records_entry w st q rs :
  non_empty (api_key st) = true -> non_empty q = true ->
  ddgs_text w q 4 = Returned rs -> rs <> [] ->
  exists s st',
    result_of (get_summary w (api_key st) q rs) = Returned s
    /\ result_of (on_search w st q) = Returned st'
    /\ search_history st'
       = {| query := q; summary := s; sources := List.map source_of rs |}
         :: search_history st
    /\ List.map source_title (List.map source_of rs) = List.map (@title) rs
    /\ List.map source_href (List.map source_of rs) = List.map (@href) rs
    /\ quizzes st' = quizzes st
    /\ api_key st' = api_key st.
Proof.
  intros Hk Hq Hd Hne. destruct rs as [|r rs]; [done|].
  destruct (get_summary_total w (api_key st) q (r :: rs)) as [s Hs].
  exists s. eexists. split; [exact Hs|].
  rewrite (on_search_found w st q r rs s Hk Hq Hd Hs). cbn [result_of snd].
  split; [reflexivity|]. cbn [search_history quizzes api_key].
  split; [reflexivity|]. rewrite !List.map_map. by repeat split.
Qed.

Lemma on_search_records_entry_witness :
  exists s st',
    result_of (get_summary sample_world (api_key keyed_session) (py "A")
                 [ {| title := py "A"; href := url_a; body := [] |} ]) = Returned s
    /\ result_of (on_search sample_world keyed_session (py "A")) = Returned st'
    /\ search_history st'
       = {| query := py "A"; summary := s;
            sources := List.map source_of [ {| title := py "A"; href := url_a; body := [] |} ] |}
         :: search_history keyed_session.
Proof.
  destruct (on_search_records_entry sample_world keyed_session (py "A")
              [ {| title := py "A"; href := url_a; body := [] |} ]
              eq_refl eq_refl eq_refl) as (s & st' & H1 & H2 & H3 & _).
  - intros H. discriminate H.
  - exists s, st'. exact (conj H1 (conj H2 H3)).
Defined.

(** X12: a search whose pages all failed to be read is recorded like any
    other: the new history entry has the fixed text saying that nothing
    could be fetched as its summary, and the generative service was not
    called. *)
Theorem on_search_records_total_failure w st q rs :
  non_empty (api_key st) = true -> non_empty q = true ->
  ddgs_text w q 4 = Returned rs -> rs <> [] ->
  Forall (fun r => extraction_failed w (href r) = true) rs ->
  result_of (on_search w st q)
  = Returned {| search_history :=
                  {| query := q; summary := NOTHING_FETCHED;
                     sources := List.map source_of rs |} :: search_history st;
                quizzes := quizzes st;
                api_key := api_key st |}
  /\ generate_calls (trace_of (on_search w st q)) = 0.
Proof.
  intros Hk Hq Hd Hne Hf. destruct rs as [|r rs]; [done|].
  destruct (get_summary_eq w (api_key st) q (r :: rs)) as [Hr Ht].
  rewrite (collected_nil_of_failed _ _ 0 Hf) in Hr, Ht.
  rewrite (on_search_found w st q r rs NOTHING_FETCHED Hk Hq Hd Hr).
  split; [reflexivity|]. cbn [trace_of fst]. unfold generate_calls.
  rewrite !List.filter_app, Ht. reflexivity.
Qed.

Lemma on_search_records_total_failure_witness :
  let w := {| ddgs_text := fun _ _ => Returned [result_for url_b; result_for url_down];
              requests_get := sample_get;
              generate_content := sample_generate;
              json_loads := sample_loads |} in
  (summary <$> head (search_history (session_of (on_search w keyed_session (py "A")))))
  = Some NOTHING_FETCHED.
Proof.
  intros w.
  assert (Hf : Forall (fun r => extraction_failed w (href r) = true)
                 [result_for url_b; result_for url_down]) by repeat constructor.
  assert (Hne : [result_for url_b; result_for url_down] <> []) by (intros H; discriminate H).
  pose proof (proj1 (on_search_records_total_failure w keyed_session (py "A")
                       [result_for url_b; result_for url_down]
                       eq_refl eq_refl eq_refl Hne Hf)) as H.
  unfold session_of. rewrite H. reflexivity.
Defined.

(** ** The history page *)

Lemma generate_quiz_result_shape w key item :
  exists v, result_of (generate_quiz w key item) = Returned v
            /\ (v = PyNone \/ quiz_shape_ok v = Returned true).
Proof.
  rewrite generate_quiz_eq. cbn [result_of snd].
  destruct (generate_content w (quiz_prompt item)) as [text|e]; [|by exists PyNone; split; [|left]].
  destruct (json_loads w (clean_response text)) as [v|e]; [|by exists PyNone; split; [|left]].
  destruct (quiz_shape_ok v) as [[|]|e] eqn:Hs; try (by exists PyNone; split; [|left]).
  exists v. split; [reflexivity|by right].
Qed.

Lemma on_generate_quiz_no_button w st i :
  search_history st !! i = None
  \/ is_Some (quizzes st !! i)
  \/ non_empty (api_key st) = false ->
  on_generate_quiz w st i = ([], Returned st).
Proof.
  intros H. unfold on_generate_quiz.
  destruct (search_history st !! i) as [item|] eqn:Ei; [|reflexivity].
  destruct H as [H|[H|H]]; [discriminate H| |].
  - rewrite (bool_decide_eq_true_2 _ H). reflexivity.
  - destruct (bool_decide (is_Some (quizzes st !! i))); [reflexivity|].
    rewrite H. reflexivity.
Qed.

(** X13: a press on a quiz button does nothing at all, and in particular
    does not call the generative service, when there is no history entry
    at that position, when a quiz is already stored under that position,
    or when no key is set. *)
Theorem on_generate_quiz_skips w st i :
  search_history st !! i = None
  \/ is_Some (quizzes st !! i)
  \/ non_empty (api_key st) = false ->
  on_generate_quiz w st i = ([], Returned st)
  /\ generate_calls (trace_of (on_generate_quiz w st i)) = 0.
Proof.
  intros H. rewrite (on_generate_quiz_no_button w st i H). by split.
Qed.

Lemma on_generate_quiz_skips_witness :
  on_generate_quiz sample_world session_2 0 = ([], Returned session_2).
Proof.
  refine (proj1 (on_generate_quiz_skips sample_world session_2 0 _)).
  right. left. exists (PyDict sample_quiz_dict). vm_compute. reflexivity.
Defined.

Lemma on_generate_quiz_stored w st i item quiz :
  search_history st !! i = Some item ->
  quizzes st !! i = None ->
  non_empty (api_key st) = true ->
  result_of (generate_quiz w (api_key st) item) = Returned quiz ->
  truthy quiz = true ->
  result_of (on_generate_quiz w st i)
  = Returned {| search_history := search_history st;
                quizzes := <[i := quiz]> (quizzes st);
                api_key := api_key st |}.
Proof.
  intros Hi Hq Hk Hg Ht. unfold on_generate_quiz. rewrite Hi, Hq, Hk.
  rewrite bool_decide_eq_false_2 by (intros [x Hx]; discriminate Hx).
  cbn [negb]. rewrite (eff_eta (generate_quiz w (api_key st) item)), Hg, bind_returned.
  rewrite Ht. unfold emit. rewrite !bind_returned. reflexivity.
Qed.

(** X14: when the entry at position [i] has no quiz yet, a key is set and
    [generate_quiz] returns a value other than None, the press stores that
    value under [i] and changes nothing else: the quizzes under other
    numbers, the history and the key stay as they were.  The value stored
    has the four keys and an [options] value of length 4. *)
Theorem on_generate_quiz_stores_checked_quiz w st i item quiz :
  search_history st !! i = Some item ->
  quizzes st !! i = None ->
  non_empty (api_key st) = true ->
  result_of (generate_quiz w (api_key st) item) = Returned quiz ->
  quiz <> PyNone ->
  exists st',
    result_of (on_generate_quiz w st i) = Returned st'
    /\ quizzes st' !! i = Some quiz
    /\ (forall j, j <> i -> quizzes st' !! j = quizzes st !! j)
    /\ search_history st' = search_history st
    /\ api_key st' = api_key st
    /\ quiz_shape_ok quiz = Returned true.
Proof.
  intros Hi Hq Hk Hg Hne.
  destruct (generate_quiz_result_shape w (api_key st) item) as (v & Hv & Hs).
  assert (v = quiz) by congruence. subst v.
  destruct Hs as [->|Hs]; [done|].
  eexists. split; [by apply (on_generate_quiz_stored w st i item quiz);
                     [| | | |apply truthy_of_shape_ok]|].
  cbn [quizzes search_history api_key]. split; [apply lookup_insert_eq|].
  split; [intros j Hj; by apply lookup_insert_ne|]. done.
Qed.

Lemma on_generate_quiz_stores_checked_quiz_witness :
  exists st',
    result_of (on_generate_quiz sample_world session_1 0) = Returned st'
    /\ quizzes st' !! 0 = Some (PyDict sample_quiz_dict).
Proof.
  destruct (on_generate_quiz_stores_checked_quiz sample_world session_1 0
              {| query := py "A"; summary := py "- a summary";
                 sources := [{| source_title := py "A"; source_href := url_a |}] |}
              (PyDict sample_quiz_dict))
    as (st' & H1 & H2 & _).
  - vm_compute. reflexivity.
  - vm_compute. reflexivity.
  - vm_compute. reflexivity.
  - vm_compute. reflexivity.
  - intros H. discriminate H.
  - exists st'. exact (conj H1 H2).
Defined.

(** ** Runs of the session *)

Lemma on_generate_quiz_cases w st i :
  exists st',
    result_of (on_generate_quiz w st i) = Returned st'
    /\ (st' = st
        \/ exists item quiz,
             search_history st !! i = Some item
             /\ quiz_shape_ok quiz = Returned true
             /\ st' = {| search_history := search_history st;
                         quizzes := <[i := quiz]> (quizzes st);
                         api_key := api_key st |}).
Proof.
  destruct (search_history st !! i) as [item|] eqn:Ei;
    [|exists st; split; [by rewrite on_generate_quiz_no_button by by left|by left]].
  destruct (quizzes st !! i) as [old|] eqn:Eq;
    [exists st; split; [by rewrite on_generate_quiz_no_button by (right; left; by exists old)
                       |by left]|].
  destruct (non_empty (api_key st)) eqn:Ek;
    [|exists st; split; [by rewrite on_generate_quiz_no_button by (right; by right)|by left]].
  destruct (generate_quiz_result_shape w (api_key st) item) as (v & Hv & [->|Hs]).
  - exists st. split; [by apply (on_generate_quiz_none w st i item)|by left].
  - eexists. split; [by apply (on_generate_quiz_stored w st i item v);
                       [| | | |apply truthy_of_shape_ok]|].
    right. by exists item, v.
Qed.

Lemma do_action_keeps w st a :
  exists st' newer,
    result_of (do_action w st a) = Returned st'
    /\ search_history st' = newer ++ search_history st
    /\ (session_ok st -> session_ok st').
Proof.
  destruct a as [key|q|i]; cbn [do_action].
  - exists (on_api_key st key), []. split; [reflexivity|]. split; [reflexivity|].
    intros Hok. exact Hok.
  - destruct (on_search_adds_in_front w st q) as (st' & Hr & [->|(item & _ & Hh & Hq)]).
    + exists st, []. split; [exact Hr|]. split; [reflexivity|]. intros Hok. exact Hok.
    + exists st', [item]. split; [done|]. split; [by rewrite Hh|].
      intros Hok j quiz Hj. rewrite Hq in Hj. destruct (Hok j quiz Hj) as [Hlt Hs].
      split; [|done]. rewrite Hh. cbn [length]. lia.
  - destruct (on_generate_quiz_cases w st i)
      as (st' & Hr & [->|(item & quiz & Hi & Hs & ->)]).
    + exists st, []. split; [exact Hr|]. split; [reflexivity|]. intros Hok. exact Hok.
    + eexists _, []. split; [exact Hr|]. split; [reflexivity|].
      intros Hok j q' Hj. cbn [quizzes search_history] in *.
      destruct (decide (i = j)) as [->|Hne].
      * rewrite lookup_insert_eq in Hj. injection Hj as <-.
        split; [by eapply lookup_lt_Some|done].
      * rewrite lookup_insert_ne in Hj by done. by apply Hok.
Qed.

Lemma run_keeps w actions : forall st,
  exists st' newer,
    result_of (run w st actions) = Returned st'
    /\ search_history st' = newer ++ search_history st
    /\ (session_ok st -> session_ok st').
Proof.
  induction actions as [|a rest IH]; intros st.
  - exists st, []. split; [reflexivity|]. split; [reflexivity|]. intros Hok. exact Hok.
  - destruct (do_action_keeps w st a) as (st1 & n1 & H1 & Hh1 & Hok1).
    destruct (IH st1) as (st2 & n2 & H2 & Hh2 & Hok2).
    exists st2, (n2 ++ n1). split; [|split].
    + cbn [run]. rewrite (eff_eta (do_action w st a)), H1, bind_returned. exact H2.
    + by rewrite Hh2, Hh1, app_assoc.
    + intros Hok. by apply Hok2, Hok1.
Qed.

(** X15: whatever the user does, in whatever order, starting from the
    empty session, the run never raises, and in the session it leaves
    every stored quiz sits under a number that is a position of the
    history and has the four keys and an [options] value of length 4. *)
Theorem stored_quizzes_are_checked_and_in_range w actions :
  exists st',
    result_of (run w initial_session actions) = Returned st'
    /\ forall i quiz,
         quizzes st' !! i = Some quiz ->
         i < length (search_history st') /\ quiz_shape_ok quiz = Returned true.
Proof.
  destruct (run_keeps w actions initial_session) as (st' & newer & Hr & _ & Hok).
  exists st'. split; [exact Hr|]. apply Hok.
  intros i quiz H. cbn [initial_session quizzes] in H. by rewrite lookup_empty in H.
Qed.

(** X16: no action removes or changes a history entry: after any run,
    from any session, the history is the old history with the new entries
    in front of it. *)
Theorem history_only_grows_in_front w st actions :
  exists st' newer,
    result_of (run w st actions) = Returned st'
    /\ search_history st' = newer ++ search_history st.
Proof.
  destruct (run_keeps w actions st) as (st' & newer & Hr & Hh & _).
  by exists st', newer.
Qed.

(** ** [generate_quiz]: what the cleaning removes *)

(** X17: what [lstrip] takes off the answer is any run of backquotes and
    of the letters j, s, o, n, with or without a fence: an object that
    follows such a run (the bare word json, for one) is parsed as if the
    run were not there. *)
Theorem clean_response_drops_leading_fence_letters pre J b :
  json_object_text J ->
  forallb (chr_in FENCE_JSON) pre = true ->
  all_space b = true ->
  clean_response (pre ++ J ++ b) = J.
Proof.
  intros HJ Hpre Hb. destruct pre as [|x pre]; [by apply (clean_response_plain [] b J)|].
  apply json_object_text_braces in HJ as [inner ->].
  cbn [forallb] in Hpre. apply andb_true_iff in Hpre as [Hx Hpre].
  assert (Hsx : is_space x = false).
  { destruct (is_space x) eqn:E; [|reflexivity].
    by rewrite (space_not_in_fence_json x E) in Hx. }
  unfold clean_response.
  replace ((x :: pre) ++ (123%N :: inner ++ [125%N]) ++ b)
    with ([] ++ x :: (pre ++ 123%N :: inner) ++ 125%N :: b) by (list_norm; reflexivity).
  rewrite strip_between by done.
  replace (x :: (pre ++ 123%N :: inner) ++ [125%N])
    with ((x :: pre) ++ 123%N :: (inner ++ [125%N])) by (list_norm; reflexivity).
  unfold str_lstrip. rewrite drop_while_upto by (cbn [forallb]; by rewrite ?Hx, ?Hpre).
  rewrite (rstrip_fence_stops (123%N :: inner) [] eq_refl : str_rstrip FENCE
             (123%N :: inner ++ [125%N]) = 123%N :: inner ++ [125%N]).
  apply (strip_padded [] inner []); done.
Qed.

Lemma clean_response_drops_leading_fence_letters_witness :
  clean_response (py "json" ++ sample_quiz_text ++ NL) = sample_quiz_text.
Proof.
  refine (clean_response_drops_leading_fence_letters (py "json") sample_quiz_text NL
            _ eq_refl eq_refl).
  exists (removelast (tail sample_quiz_text)). vm_compute. reflexivity.
Defined.

(** ** The draft: [ai_studio_code.py] *)

Lemma draft_scrape_content_try_eq w url timeout :
  Draft.scrape_content_try w url timeout =
  ([EvHttpGet url timeout],
   match requests_get w url timeout with
   | Raised e => Raised e
   | Returned r =>
     match http_error r with
     | Some msg => Raised {| exn_kind := RequestException; exn_str := msg |}
     | None =>
       let content := Draft.paragraph_content (soup_find_all (py "p") (soup r)) in
       if non_empty content then Returned (str_slice_to 3000 content)
       else
         match find (py "body") (soup r) with
         | None =>
           Raised {| exn_kind := AttributeError;
                     exn_str := py "'NoneType' object has no attribute '"
                                ++ py "get_text" ++ py "'" |}
         | Some region => Returned (str_slice_to 3000 (get_text NL true region))
         end
     end
   end).
Proof.
  unfold Draft.scrape_content_try, http_get, emit, lift, raise_for_status, attribute_of.
  rewrite bind_returned. cbn [trace_of result_of fst snd].
  destruct (requests_get w url timeout) as [r|e]; [|reflexivity].
  rewrite bind_returned. cbn [trace_of result_of fst snd].
  destruct (http_error r); [reflexivity|].
  unfold ret, raise. rewrite bind_returned. cbn [trace_of result_of fst snd]. cbn zeta.
  destruct (non_empty _); [reflexivity|].
  destruct (find (py "body") (soup r)); reflexivity.
Qed.

Lemma draft_scrape_content_cases w url timeout :
  exists s, Draft.scrape_content w url timeout = ([EvHttpGet url timeout], Returned s).
Proof.
  unfold Draft.scrape_content. rewrite draft_scrape_content_try_eq.
  destruct (requests_get w url timeout) as [r|e].
  - destruct (http_error r).
    + eexists. cbn [try_except find_handler]. reflexivity.
    + cbn zeta. destruct (non_empty _); [eexists; reflexivity|].
      destruct (find (py "body") (soup r)); eexists; cbn [try_except find_handler];
        reflexivity.
  - cbn [try_except find_handler].
    destruct (is_a RequestException e); eexists; reflexivity.
Qed.

Lemma draft_scrape_content_eq w url timeout :
  Draft.scrape_content w url timeout =
  ([EvHttpGet url timeout], Returned (text_of (Draft.scrape_content w url timeout))).
Proof.
  destruct (draft_scrape_content_cases w url timeout) as [s H]. rewrite H. reflexivity.
Qed.

(** X18: the draft of [scrape_content] never raises either and makes one
    request; the text of an extraction that went through is at most 3000
    characters long; and a failed HTTP call gives the first failure
    message with the URL in it. *)
Theorem draft_scrape_content_never_raises_and_caps w url timeout :
  (exists s, Draft.scrape_content w url timeout = ([EvHttpGet url timeout], Returned s))
  /\ (forall s, result_of (Draft.scrape_content_try w url timeout) = Returned s ->
                result_of (Draft.scrape_content w url timeout) = Returned s
                /\ length s <= 3000)
  /\ (http_call_failed w url timeout ->
      exists s, result_of (Draft.scrape_content w url timeout) = Returned s
                /\ str_startswith FAILED_PREFIX_1 s = true
                /\ str_contains url s = true).
Proof.
  split; [|split].
  - eexists. apply draft_scrape_content_eq.
  - intros s H. split.
    + unfold Draft.scrape_content.
      destruct (Draft.scrape_content_try w url timeout) as [t r].
      cbn [result_of snd] in H. by rewrite H.
    + rewrite draft_scrape_content_try_eq in H. cbn [result_of snd] in H.
      destruct (requests_get w url timeout) as [r|e]; [|discriminate H].
      destruct (http_error r); [discriminate H|]. cbn zeta in H.
      destruct (non_empty _).
      * assert (Hs : s = str_slice_to 3000
                           (Draft.paragraph_content (soup_find_all (py "p") (soup r))))
          by congruence.
        rewrite Hs. apply length_slice_to.
      * destruct (find (py "body") (soup r)) as [region|]; [|discriminate H].
        assert (Hs : s = str_slice_to 3000 (get_text NL true region)) by congruence.
        rewrite Hs. apply length_slice_to.
  - apply draft_scrape_content_names_url.
Qed.

Lemma draft_scrape_content_never_raises_and_caps_witness :
  http_call_failed sample_world url_b Draft.DEFAULT_TIMEOUT
  /\ exists s, result_of (Draft.scrape_content sample_world url_b Draft.DEFAULT_TIMEOUT)
               = Returned s
               /\ str_startswith FAILED_PREFIX_1 s = true
               /\ str_contains url_b s = true.
Proof.
  assert (H : http_call_failed sample_world url_b Draft.DEFAULT_TIMEOUT).
  { right. exists not_found_response, (http_error_text not_found_response).
    split; reflexivity. }
  split; [exact H|].
  exact (proj2 (proj2 (draft_scrape_content_never_raises_and_caps sample_world url_b
                         Draft.DEFAULT_TIMEOUT)) H).
Defined.

Lemma draft_scrape_loop_spec w total results : forall i acc,
  exists added,
    result_of (Draft.scrape_loop w total i results acc) = Returned (acc ++ added)
    /\ List.filter is_generate (trace_of (Draft.scrape_loop w total i results acc)) = []
    /\ List.filter is_http_get (trace_of (Draft.scrape_loop w total i results acc))
       = List.map (fun r => EvHttpGet (href r) Draft.DEFAULT_TIMEOUT) results
    /\ forall j r,
         results !! j = Some r ->
         str_contains
           (source_block (i + j) r
              (text_of (Draft.scrape_content w (href r) Draft.DEFAULT_TIMEOUT)))
           added = true.
Proof.
  induction results as [|r rest IH]; intros i acc.
  - exists []. rewrite app_nil_r. repeat split. intros j r H. by rewrite lookup_nil in H.
  - cbn [Draft.scrape_loop]. unfold emit. rewrite bind_returned.
    rewrite draft_scrape_content_eq. cbn [trace_of result_of fst snd].
    rewrite !bind_returned. cbn [trace_of result_of fst snd].
    set (block := source_block i r
                    (text_of (Draft.scrape_content w (href r) Draft.DEFAULT_TIMEOUT))).
    destruct (IH (S i) (acc ++ block)) as (added & Hr & Hg & Hh & Hb).
    exists (block ++ added). split; [by rewrite Hr, <- app_assoc|].
    cbn [app List.filter is_generate is_http_get List.map].
    split; [exact Hg|]. split; [by rewrite Hh|].
    intros j r' Hj. destruct j as [|j].
    + injection Hj as <-. rewrite Nat.add_0_r. apply (str_contains_at block [] added).
    + replace (i + S j) with (S i + j) by lia.
      rewrite <- (app_nil_r added).
      apply (str_contains_inside _ added block []). by apply Hb.
Qed.

(** X19: the draft of [get_summary] calls the generative service exactly
    once in every run, whatever happened to the extractions, after having
    requested every result once and in order; and the prompt holds a
    block for every result, with the failure message as its text when the
    page could not be read. *)
Theorem draft_get_summary_always_asks_once w key q results :
  generate_calls (trace_of (Draft.get_summary w key q results)) = 1
  /\ List.filter is_http_get (trace_of (Draft.get_summary w key q results))
     = List.map (fun r => EvHttpGet (href r) Draft.DEFAULT_TIMEOUT) results
  /\ exists prompt,
       List.filter is_generate (trace_of (Draft.get_summary w key q results))
       = [EvGenerate prompt]
       /\ str_contains q prompt = true
       /\ forall j r,
            results !! j = Some r ->
            str_contains
              (source_block j r
                 (text_of (Draft.scrape_content w (href r) Draft.DEFAULT_TIMEOUT)))
              prompt = true.
Proof.
  destruct (draft_scrape_loop_spec w (length results) results 0 [])
    as (added & Hr & Hg & Hh & Hb).
  assert (Ht : trace_of (Draft.get_summary w key q results)
               = [EvConfigure key; EvModel MODEL_NAME]
                 ++ trace_of (Draft.scrape_loop w (length results) 0 results [])
                 ++ [EvGenerate (summary_prompt q added)]).
  { unfold Draft.get_summary, emit. rewrite !bind_returned.
    cbn [trace_of result_of fst snd].
    rewrite (eff_eta (Draft.scrape_loop w (length results) 0 results [])), Hr.
    cbn [app]. rewrite bind_returned. cbn [trace_of result_of fst snd].
    unfold generate, emit, lift. rewrite bind_returned. cbn [trace_of result_of fst snd].
    destruct (generate_content w _); reflexivity. }
  unfold generate_calls. rewrite Ht, !List.filter_app, Hg, Hh.
  split; [reflexivity|]. split; [by rewrite app_nil_r|].
  exists (summary_prompt q added). split; [reflexivity|].
  destruct summary_prompt_shape as (p1 & p2 & p3 & Hshape). rewrite Hshape.
  split; [apply str_contains_at|].
  intros j r Hj. specialize (Hb j r Hj). cbn [Nat.add] in Hb.
  apply (str_contains_inside _ added (p1 ++ q ++ p2) p3) in Hb.
  by rewrite <- !app_assoc in Hb.
Qed.

Lemma py_in_raises_type_error k v e : py_in k v = Raised e -> exn_kind e = TypeError.
Proof.
  destruct v; cbn [py_in]; intros H; try discriminate H;
    (assert (He : e = {| exn_kind := TypeError; exn_str := exn_str e |})
       by (destruct e; cbn [exn_str]; congruence));
    by rewrite He.
Qed.

(** X20: when the call to the generative service raises, [generate_quiz]
    of [app.py] returns None, but the draft catches three classes only
    and lets any other exception through to the page; the same happens
    in the draft when the answer parses to a value on which the test for
    the keys raises (a number, a truth value or null): the exception is a
    [TypeError], [app.py] returns None and the draft raises it. *)
Theorem draft_generate_quiz_lets_errors_through w key item :
  (forall e,
     generate_content w (quiz_prompt item) = Raised e ->
     result_of (generate_quiz w key item) = Returned PyNone
     /\ result_of (Draft.generate_quiz w key item)
        = if is_a JSONDecodeError e || is_a AttributeError e || is_a KeyError e
          then Returned PyNone else Raised e)
  /\ (forall text v e,
        generate_content w (quiz_prompt item) = Returned text ->
        json_loads w (clean_response text) = Returned v ->
        py_in (py "question") v = Raised e ->
        exn_kind e = TypeError
        /\ result_of (generate_quiz w key item) = Returned PyNone
        /\ result_of (Draft.generate_quiz w key item) = Raised e).
Proof.
  split.
  - intros e He. split; [by rewrite generate_quiz_eq, He|].
    unfold Draft.generate_quiz, emit. rewrite !bind_returned.
    rewrite generate_quiz_try_eq, He. cbn [trace_of result_of fst snd try_except find_handler].
    destruct (is_a JSONDecodeError e || is_a AttributeError e || is_a KeyError e);
      reflexivity.
  - intros text v e Ht Hl Hin.
    pose proof (py_in_raises_type_error _ _ _ Hin) as Hk.
    assert (Hs : quiz_shape_ok v = Raised e).
    { unfold quiz_shape_ok, REQUIRED_KEYS. cbn [py_all_in]. by rewrite Hin. }
    split; [exact Hk|]. split; [by rewrite generate_quiz_eq, Ht, Hl, Hs|].
    unfold Draft.generate_quiz, emit. rewrite !bind_returned.
    rewrite generate_quiz_try_eq, Ht, Hl, Hs.
    cbn [trace_of result_of fst snd try_except find_handler].
    unfold is_a. rewrite Hk. reflexivity.
Qed.

Lemma draft_generate_quiz_lets_errors_through_witness :
  result_of (Draft.generate_quiz quota_world (py "key") sample_item)
  = Raised {| exn_kind := OtherException; exn_str := py "429 quota exceeded" |}.
Proof.
  exact (proj2 (proj1 (draft_generate_quiz_lets_errors_through quota_world (py "key")
                         sample_item)
                  {| exn_kind := OtherException; exn_str := py "429 quota exceeded" |}
                  eq_refl)).
Defined.

(** ** [get_summary]: the answer of the service *)

Lemma collected_of_fetched w results : forall k,
  Exists (fun r => looks_fetched (text_of (scrape_content w (href r) DEFAULT_TIMEOUT)) = true)
    results ->
  collected w k results <> [].
Proof.
  induction results as [|r rest IH]; intros k H; [by apply Exists_nil in H|].
  rewrite collected_cons. apply Exists_cons in H as [H|H].
  - rewrite H. intros E. discriminate E.
  - intros E. apply app_eq_nil in E as [_ E]. by apply (IH (S k)).
Qed.

(** X21: when at least one source gave a text that does not open with a
    failure prefix and the generative service answers, [get_summary]
    returns the answer of the service as it is, after exactly one call. *)
Theorem get_summary_returns_the_answer w key q results answer :
  Exists (fun r => looks_fetched (text_of (scrape_content w (href r) DEFAULT_TIMEOUT)) = true)
    results ->
  generate_content w (summary_prompt q (concat (collected w 0 results))) = Returned answer ->
  result_of (get_summary w key q results) = Returned answer
  /\ generate_calls (trace_of (get_summary w key q results)) = 1.
Proof.
  intros Hex Hans. destruct (get_summary_eq w key q results) as [Hr Ht].
  pose proof (collected_of_fetched w results 0 Hex) as Hne.
  unfold generate_calls. rewrite Hr, Ht, Hans.
  destruct (collected w 0 results); [done|]. by split.
Qed.

Lemma get_summary_returns_the_answer_witness :
  result_of (get_summary sample_world (py "key") (py "q")
               [result_for url_b; result_for url_a]) = Returned (py "- a summary").
Proof.
  refine (proj1 (get_summary_returns_the_answer sample_world (py "key") (py "q")
                   [result_for url_b; result_for url_a] (py "- a summary") _ _)).
  - apply Exists_cons_tl, Exists_cons_hd. vm_compute. reflexivity.
  - vm_compute. reflexivity.
Defined.
